(** * QMB6Pro test application: register codec, acquisition, discovery, poll loop

    A shallow embedding of the Python sources

      - [modbus_client.py]  (RTUClient, words_to_ascii, words_to_ip, read_all,
                             find_reg, scale_to_raw, write_u16)
      - [app.py]            (its own copy of read_all, wait_for_device, the
                             value_fn of main)
      - [autodetect.py]     (_probe_once, autodetect)
      - [app_gui.py]        (safe_number, compute_crystal_usage, _commit,
                             _on_write, _worker_loop, _update_plot)
      - [plotter.py]        (LivePlot: _loop and the update of _show)

    Conventions of the embedding.

      - A Python exception is its class name ([type(e).__name__]); every name
        stands for a subclass of [Exception], so [except Exception] catches it.
      - Code that talks to the serial line runs in [IO Dev]: a state and
        exception monad over the state [Dev] of the host (serial ports, the
        instrument behind them, the clock).  The host itself (pyserial,
        minimalmodbus, the configuration file) is the interface [Host].
      - Python integers are [Z] (unbounded, [&], [|], [<<], [>>], [~] as
        [Z.land], [Z.lor], [Z.shiftl], [Z.shiftr], [Z.lnot]).
      - Python floats are exact rationals [Q]; the written value, which comes
        from user text, may also be infinite or NaN ([pyfloat]).  Binary
        rounding of float arithmetic is outside the model.
      - A register descriptor is the JSON object of registers.json: every key
        is optional, as the code reads them with [r[k]], [r.get(k, d)] and
        [k in r]; the values have the types of the register map. *)

From Stdlib Require Import ZArith QArith Qround Qabs Lqa Qfield.
From Stdlib Require Import List String Ascii Bool Lia.
From Stdlib Require DecimalString.
Import ListNotations.

Open Scope string_scope.
Open Scope list_scope.
Open Scope Z_scope.

Set Implicit Arguments.

(* ================================================================== *)
(** ** Exceptions and the IO monad *)

Definition exn := string.

Inductive result (A : Type) : Type :=
| Ok (a : A)
| Raise (e : exn).

Arguments Ok {A} a.
Arguments Raise {A} e.

Definition IO (Dev A : Type) : Type := Dev -> result A * Dev.

Definition ret {Dev A} (a : A) : IO Dev A := fun d => (Ok a, d).

Definition raise {Dev A} (e : exn) : IO Dev A := fun d => (Raise e, d).

Definition bind {Dev A B} (m : IO Dev A) (k : A -> IO Dev B) : IO Dev B :=
  fun d => match m d with
           | (Ok a, d') => k a d'
           | (Raise e, d') => (Raise e, d')
           end.

(** [try: m except Exception as e: h e] *)
Definition try_except {Dev A} (m : IO Dev A) (h : exn -> IO Dev A) : IO Dev A :=
  fun d => match m d with
           | (Ok a, d') => (Ok a, d')
           | (Raise e, d') => h e d'
           end.

(** A pure computation that may raise, run inside [IO]. *)
Definition lift {Dev A} (r : result A) : IO Dev A := fun d => (r, d).

Declare Scope io_scope.
Delimit Scope io_scope with io.

Notation "x <- m ;; k" := (bind m (fun x => k))
  (at level 100, m at next level, right associativity) : io_scope.
Notation "m ;;; k" := (bind m (fun _ => k))
  (at level 100, right associativity) : io_scope.

Open Scope io_scope.

(* ================================================================== *)
(** ** Python values *)

(** A float that came from [float(text)]. *)
Inductive pyfloat : Type :=
| Fin (q : Q)
| PInf
| NInf
| NaN.

(** [a < b] on floats; every comparison with NaN is false. *)
Definition flt (a b : pyfloat) : bool :=
  match a, b with
  | NaN, _ => false
  | _, NaN => false
  | Fin x, Fin y => if Qlt_le_dec x y then true else false
  | NInf, NInf => false
  | NInf, _ => true
  | PInf, _ => false
  | Fin _, PInf => true
  | Fin _, NInf => false
  end.

(** [max(a, b)] with two arguments keeps [a] unless [b > a]. *)
Definition py_max (a b : pyfloat) : pyfloat := if flt a b then b else a.

(** [min(a, b)] with two arguments keeps [a] unless [b < a]. *)
Definition py_min (a b : pyfloat) : pyfloat := if flt b a then b else a.

(** [round(x)] on a finite float: nearest integer, ties to the even one. *)
Definition round_half_even (q : Q) : Z :=
  let f := Qfloor q in
  let d := (q - inject_Z f)%Q in
  if Qlt_le_dec d (1 # 2) then f
  else if Qlt_le_dec (1 # 2) d then f + 1
  else if Z.even f then f else f + 1.

(** [int(round(x))]: [round] raises on infinities and NaN. *)
Definition py_round (x : pyfloat) : result Z :=
  match x with
  | Fin q => Ok (round_half_even q)
  | PInf | NInf => Raise "OverflowError"
  | NaN => Raise "ValueError"
  end.

(** [int(x)] on a float truncates toward zero. *)
Definition py_int_of_float (x : pyfloat) : result Z :=
  match x with
  | Fin q => Ok (Z.quot (Qnum q) (Zpos (Qden q)))
  | PInf | NInf => Raise "OverflowError"
  | NaN => Raise "ValueError"
  end.

(** [x / s] for a finite non-zero [s]. *)
Definition py_div (x : pyfloat) (s : Q) : pyfloat :=
  match x with
  | Fin q => Fin (q / s)
  | PInf => if Qlt_le_dec 0 s then PInf else NInf
  | NInf => if Qlt_le_dec 0 s then NInf else PInf
  | NaN => NaN
  end.

(** The values [read_all] stores in its output mapping. *)
Inductive pyval : Type :=
| VBool (b : bool)
| VInt (z : Z)
| VFloat (q : Q)
| VStr (s : string)
| VList (labels : list string).

(** [str(n)] for an integer. *)
Definition py_str_of_int (n : Z) : string :=
  DecimalString.NilZero.string_of_int (Z.to_int n).

(** [sep.join(parts)] *)
Fixpoint join (sep : string) (parts : list string) : string :=
  match parts with
  | [] => ""
  | [p] => p
  | p :: rest => p ++ sep ++ join sep rest
  end.

(** [s.startswith(p)] *)
Definition startswith (s p : string) : bool := String.prefix p s.

(** [s.lower()] on ASCII text. *)
Definition lower_ascii (c : ascii) : ascii :=
  let n := nat_of_ascii c in
  if andb (Nat.leb 65 n) (Nat.leb n 90) then ascii_of_nat (n + 32) else c.

Fixpoint lower (s : string) : string :=
  match s with
  | EmptyString => EmptyString
  | String c s' => String (lower_ascii c) (lower s')
  end.

(* ================================================================== *)
(** ** Python dicts with string keys

    Insertion ordered: assigning to a key that is present replaces the value
    where it stands, assigning to a new key appends it. *)

Section Dict.
Variable V : Type.

Definition dict := list (string * V).

Fixpoint dict_get (k : string) (d : dict) : option V :=
  match d with
  | [] => None
  | (k', v) :: d' => if String.eqb k k' then Some v else dict_get k d'
  end.

Fixpoint dict_set (d : dict) (k : string) (v : V) : dict :=
  match d with
  | [] => [(k, v)]
  | (k', v') :: d' =>
      if String.eqb k k' then (k', v) :: d' else (k', v') :: dict_set d' k v
  end.

Definition dict_keys (d : dict) : list string := map fst d.

Definition dict_mem (k : string) (d : dict) : bool :=
  match dict_get k d with Some _ => true | None => false end.
End Dict.

Arguments dict_get {V} k d.
Arguments dict_set {V} d k v.
Arguments dict_keys {V} d.
Arguments dict_mem {V} k d.


(* ================================================================== *)
(** ** Data model: registers.json *)

(** One entry of ["registers"].  [None] is an absent key. *)
Record reg : Type := mkReg {
  r_name : option string;          (* 'name' *)
  r_type : option string;          (* 'type' *)
  r_function : option Z;           (* 'function' *)
  r_address : option Z;            (* 'address' *)
  r_scale : option Q;              (* 'scale' *)
  r_words : option Z;              (* 'words' *)
  r_map : option (dict string);    (* 'map': raw value or bit mask, as text, to label *)
  r_min : option Q;                (* 'min' *)
  r_max : option Q                 (* 'max' *)
}.

(** The whole document. *)
Record config : Type := mkConfig {
  c_slave_id : option Z;           (* 'slave_id' *)
  c_endianness : option string;    (* 'endianness' *)
  c_probe : option reg;            (* 'probe' *)
  c_registers : option (list reg)  (* 'registers' *)
}.

(** [d[k]] *)
Definition getitem {A} (field : option A) : result A :=
  match field with
  | Some v => Ok v
  | None => Raise "KeyError"
  end.

(** [d.get(k, default)] *)
Definition get {A} (field : option A) (default : A) : A :=
  match field with
  | Some v => v
  | None => default
  end.

(** [l[i]] for a non-negative constant index. *)
Definition index {A} (l : list A) (i : nat) : result A :=
  match nth_error l i with
  | Some v => Ok v
  | None => Raise "IndexError"
  end.

(** Truth value of a descriptor used as a condition: an empty dict is false. *)
Definition reg_truthy (r : reg) : bool :=
  match r with
  | mkReg None None None None None None None None None => false
  | _ => true
  end.

(** [x in (a, b, ...)] for strings. *)
Definition str_in (x : string) (l : list string) : bool :=
  existsb (String.eqb x) l.

(** The attributes an [RTUClient] is built from. *)
Record RTUClient : Type := mkRTUClient {
  port : string;
  baudrate : Z;
  slave_id : Z;
  parity : string;
  stopbits : Z;
  timeout : Q
}.

(* ================================================================== *)
(** ** The host

    What the program asks of its surroundings: Python's number parsers,
    pyserial, minimalmodbus, the configuration file and the clock.  Nothing is
    assumed about them; each operation may change the host state and, where
    Python allows it, raise. *)

Class Host (Dev : Type) : Type := {
  (** [float(text)] *)
  py_float : string -> result pyfloat;
  (** [int(text)] *)
  py_int : string -> result Z;
  (** [minimalmodbus.Instrument(port, slave_id, mode=MODE_RTU)] and the serial
      settings made by [RTUClient.__init__], [getattr(serial, 'PARITY_x')]
      among them. *)
  instrument_new : RTUClient -> IO Dev unit;
  (** [instrument.read_registers(address, count, functioncode=fn)] *)
  read_registers : RTUClient -> Z -> Z -> Z -> IO Dev (list Z);
  (** [instrument.write_register(address, value, functioncode=fn, signed=False)] *)
  write_register : RTUClient -> Z -> Z -> Z -> IO Dev unit;
  (** [[p.device for p in list_ports.comports()]] *)
  comports : IO Dev (list string);
  (** [load_config()] of autodetect.py *)
  load_config : IO Dev config;
  (** [time.sleep(seconds)] *)
  time_sleep : Q -> Dev -> Dev;
  (** [time.time()] *)
  time_time : Dev -> Q
}.

(** [time.sleep] and [time.time] as computations.  [sleep] is for the
    literal durations of the program, on which [time.sleep] does not raise. *)
Definition sleep {Dev} {host : Host Dev} (seconds : Q) : IO Dev unit :=
  fun d => (Ok tt, time_sleep seconds d).

Definition now {Dev} {host : Host Dev} : IO Dev Q :=
  fun d => (Ok (time_time d), d).



(** A reference to a client as the callers hold it: [None] is Python's [None],
    on which every method call raises AttributeError. *)
Definition client := option RTUClient.

(* ================================================================== *)
(** ** modbus_client.py *)

Module modbus_client.
Section WithHost.
Context {Dev : Type} {host : Host Dev}.

(** [RTUClient(port, baudrate, slave_id, parity=..., stopbits=1, timeout=0.2)] *)
Definition RTUClient_init (port : string) (baudrate slave_id : Z) (parity : string)
  : IO Dev RTUClient :=
  let self := mkRTUClient port baudrate slave_id parity 1 (2 # 10) in
  instrument_new self ;;;
  ret self.

Definition read_regs (self : client) (address count functioncode : Z)
  : IO Dev (list Z) :=
  match self with
  | Some c => read_registers c address count functioncode
  | None => raise "AttributeError"
  end.

Definition write_single (self : client) (address value functioncode : Z)
  : IO Dev unit :=
  match self with
  | Some c => write_register c address value functioncode
  | None => raise "AttributeError"
  end.

(** [(w >> 8) & 0xFF, w & 0xFF] *)
Definition hi_byte (w : Z) : Z := Z.land (Z.shiftr w 8) 255.
Definition lo_byte (w : Z) : Z := Z.land w 255.

Definition byte_char (b : Z) : ascii := ascii_of_N (Z.to_N b).

(** [str.isspace] on an ASCII character. *)
Definition isspace (c : ascii) : bool :=
  let n := nat_of_ascii c in
  orb (andb (Nat.leb 9 n) (Nat.leb n 13))
      (andb (Nat.leb 28 n) (Nat.leb n 32)).

Fixpoint dropwhile {A} (p : A -> bool) (l : list A) : list A :=
  match l with
  | [] => []
  | x :: l' => if p x then dropwhile p l' else l
  end.

(** [s.rstrip(chars)] and [s.strip()] on character lists. *)
Definition rstrip (p : ascii -> bool) (l : list ascii) : list ascii :=
  rev (dropwhile p (rev l)).

Definition strip (l : list ascii) : list ascii :=
  rstrip isspace (dropwhile isspace l).

(** [bs.decode('ascii', errors='ignore')]: bytes above 127 are dropped. *)
Definition decode_ascii_ignore (bs : list Z) : list ascii :=
  map byte_char (filter (fun b => b <? 128) bs).

Definition words_to_ascii (words : list Z) : string :=
  let bs := flat_map (fun w => [hi_byte w; lo_byte w]) words in
  string_of_list_ascii
    (strip (rstrip (Ascii.eqb zero) (decode_ascii_ignore bs))).

Definition words_to_ip (words : list Z) : string :=
  let b := flat_map (fun w => [hi_byte w; lo_byte w]) words in
  join "." (map py_str_of_int b).

Definition hex_digit (n : Z) : ascii :=
  nth (Z.to_nat n)
      ["0"; "1"; "2"; "3"; "4"; "5"; "6"; "7";
       "8"; "9"; "A"; "B"; "C"; "D"; "E"; "F"]%char "0"%char.

(** [f"{x:02X}"] for a byte [0 <= x < 256], the only arguments it gets
    (every [x] was masked with [0xFF]). *)
Definition format_02X (x : Z) : string :=
  String (hex_digit (x / 16)) (String (hex_digit (x mod 16)) EmptyString).

(** The loop over [r['map'].items()] of the bitmask16 branch. *)
Fixpoint bitmask_flags (items : dict string) (w : Z) (flags : list string)
  : result (list string) :=
  match items with
  | [] => Ok flags
  | (bit_str, label) :: rest =>
      match py_int bit_str with
      | Raise e => Raise e
      | Ok mask =>
          bitmask_flags rest w
            (if Z.eqb (Z.land w mask) 0 then flags else flags ++ [label])
      end
  end.

(** [(words[hi] << 16) | words[lo]] *)
Definition assemble32 (words : list Z) (hi lo : nat) : result Z :=
  match index words hi with
  | Raise e => Raise e
  | Ok h =>
      match index words lo with
      | Raise e => Raise e
      | Ok l => Ok (Z.lor (Z.shiftl h 16) l)
      end
  end.

(** The body of the [try] of [read_all], up to the value it is about to
    store under [r['name']]. *)
Definition reg_value (cli : client) (r : reg) (endianness : string)
  : IO Dev pyval :=
  t <- lift (getitem (r_type r)) ;;
  let fn := get (r_function r) 3 in
  addr <- lift (getitem (r_address r)) ;;
  let scale := get (r_scale r) 1%Q in
  if str_in t ["uint16"; "int16"; "enum16"; "bool16"; "command16"; "bitmask16"] then
    ws <- read_regs cli addr 1 fn ;;
    w <- lift (index ws 0) ;;
    if String.eqb t "bool16" then
      ret (VBool (negb (Z.eqb w 0)))
    else
      match (if String.eqb t "enum16" then r_map r else None) with
      | Some m =>
          ret (match dict_get (py_str_of_int w) m with
               | Some label => VStr label
               | None => VInt w
               end)
      | None =>
          match (if String.eqb t "bitmask16" then r_map r else None) with
          | Some m =>
              flags <- lift (bitmask_flags m w []) ;;
              ret (VList flags)
          | None =>
              ret (VFloat (inject_Z w * scale))
          end
      end
  else if str_in t ["uint32"; "int32"; "ip32"; "mac48"; "ascii"] then
    if String.eqb t "ascii" then
      words <- read_regs cli addr (get (r_words r) 1) fn ;;
      ret (VStr (words_to_ascii words))
    else
      let count := if String.eqb t "mac48" then 3 else 2 in
      words <- read_regs cli addr count fn ;;
      if String.eqb t "ip32" then
        ret (VStr (words_to_ip words))
      else if String.eqb t "mac48" then
        let b := map hi_byte words ++ map lo_byte words in
        ret (VStr (join ":" (map format_02X (firstn 6 b))))
      else
        let be := String.eqb endianness "big" in
        val <- lift (if be then assemble32 words 0 1 else assemble32 words 1 0) ;;
        let val := if andb (String.eqb t "int32")
                           (negb (Z.eqb (Z.land val 0x80000000) 0))
                   then - (Z.land (Z.lnot val) 0xFFFFFFFF + 1)
                   else val in
        ret (VFloat (inject_Z val * scale))
  else
    ret (VStr "UNSUPPORTED").

(** One turn of the [for r in regs] loop: the [try] stores the value under
    [r['name']]; the handler stores the marker under [r['name']]. *)
Definition read_all_step (cli : client) (endianness : string)
  (out : dict pyval) (r : reg) : IO Dev (dict pyval) :=
  try_except
    (v <- reg_value cli r endianness ;;
     name <- lift (getitem (r_name r)) ;;
     ret (dict_set out name v))
    (fun e =>
       name <- lift (getitem (r_name r)) ;;
       ret (dict_set out name (VStr ("ERR:" ++ e)))).

Fixpoint read_all_loop (cli : client) (regs : list reg) (endianness : string)
  (out : dict pyval) : IO Dev (dict pyval) :=
  match regs with
  | [] => ret out
  | r :: rest =>
      out' <- read_all_step cli endianness out r ;;
      read_all_loop cli rest endianness out'
  end.

Definition read_all (cli : client) (regs : list reg) (endianness : string)
  : IO Dev (dict pyval) :=
  read_all_loop cli regs endianness [].

Fixpoint find_reg (regs : list reg) (name : string) : result reg :=
  match regs with
  | [] => Raise "KeyError"
  | r :: rest =>
      match getitem (r_name r) with
      | Raise e => Raise e
      | Ok n => if String.eqb n name then Ok r else find_reg rest name
      end
  end.

Definition scale_to_raw (val : pyfloat) (reg : reg) : result Z :=
  let scale := get (r_scale reg) 1%Q in
  if negb (Qeq_bool scale 0) then py_round (py_div val scale)
  else py_round val.

Definition write_u16 (cli : client) (addr value fn : Z) : IO Dev unit :=
  write_single cli addr value fn.

End WithHost.
End modbus_client.

(* ================================================================== *)
(** ** app.py: its own copy of the acquisition pass *)

Module app.
Section WithHost.
Context {Dev : Type} {host : Host Dev}.

Import modbus_client.

Definition words_to_ascii (words : list Z) : string :=
  let bs := flat_map (fun w => [hi_byte w; lo_byte w]) words in
  string_of_list_ascii
    (strip (rstrip (Ascii.eqb zero) (decode_ascii_ignore bs))).

Definition words_to_ip (words : list Z) : string :=
  let b := flat_map (fun w => [hi_byte w; lo_byte w]) words in
  join "." (map py_str_of_int b).

Definition reg_value (cli : client) (r : reg) (endianness : string)
  : IO Dev pyval :=
  t <- lift (getitem (r_type r)) ;;
  let fn := get (r_function r) 3 in
  addr <- lift (getitem (r_address r)) ;;
  let scale := get (r_scale r) 1%Q in
  if str_in t ["uint16"; "int16"; "enum16"; "bool16"; "command16"] then
    ws <- read_regs cli addr 1 fn ;;
    w <- lift (index ws 0) ;;
    if String.eqb t "bool16" then
      ret (VBool (negb (Z.eqb w 0)))
    else
      match (if String.eqb t "enum16" then r_map r else None) with
      | Some m =>
          ret (match dict_get (py_str_of_int w) m with
               | Some label => VStr label
               | None => VInt w
               end)
      | None =>
          ret (VFloat (inject_Z w * scale))
      end
  else if str_in t ["uint32"; "int32"; "ip32"] then
    words <- read_regs cli addr 2 fn ;;
    if String.eqb t "ip32" then
      ret (VStr (words_to_ip words))
    else
      let be := String.eqb endianness "big" in
      val <- lift (if be then assemble32 words 0 1 else assemble32 words 1 0) ;;
      let val := if andb (String.eqb t "int32")
                         (negb (Z.eqb (Z.land val 0x80000000) 0))
                 then - (Z.land (Z.lnot val) 0xFFFFFFFF + 1)
                 else val in
      ret (VFloat (inject_Z val * scale))
  else if String.eqb t "ascii" then
    words <- read_regs cli addr (get (r_words r) 1) fn ;;
    ret (VStr (words_to_ascii words))
  else
    ret (VStr "UNSUPPORTED").

Definition read_all_step (cli : client) (endianness : string)
  (out : dict pyval) (r : reg) : IO Dev (dict pyval) :=
  try_except
    (v <- reg_value cli r endianness ;;
     name <- lift (getitem (r_name r)) ;;
     ret (dict_set out name v))
    (fun e =>
       name <- lift (getitem (r_name r)) ;;
       ret (dict_set out name (VStr ("ERR:" ++ e)))).

Fixpoint read_all_loop (cli : client) (regs : list reg) (endianness : string)
  (out : dict pyval) : IO Dev (dict pyval) :=
  match regs with
  | [] => ret out
  | r :: rest =>
      out' <- read_all_step cli endianness out r ;;
      read_all_loop cli rest endianness out'
  end.

Definition read_all (cli : client) (regs : list reg) (endianness : string)
  : IO Dev (dict pyval) :=
  read_all_loop cli regs endianness [].

End WithHost.
End app.

(* ================================================================== *)
(** ** autodetect.py *)

Module autodetect.
Section WithHost.
Context {Dev : Type} {host : Host Dev}.

Import modbus_client.

Definition COMMON_BAUDS : list Z := [115200; 57600; 38400; 19200; 9600].
Definition COMMON_PARITIES : list string := ["N"].

Definition _probe_once (port : string) (baud : Z) (parity : string)
  (slave_id : Z) (endianness : string) (probe_reg : reg) : IO Dev bool :=
  try_except
    (cli <- RTUClient_init port baud slave_id parity ;;
     sleep (5 # 100) ;;;
     let regs := [probe_reg] in
     data <- read_all (Some cli) regs endianness ;;
     name <- lift (getitem (r_name probe_reg)) ;;
     let val := dict_get name data in
     ret (negb (match val with
                | Some (VStr s) => startswith s "ERR:"
                | _ => false
                end)))
    (fun _ => ret false).

(** [for x in xs: body], where the body may [return] a value from the
    enclosing function ([Some]) or fall through to the next turn ([None]). *)
Fixpoint for_return {A R} (xs : list A) (body : A -> IO Dev (option R))
  : IO Dev (option R) :=
  match xs with
  | [] => ret None
  | x :: rest =>
      r <- body x ;;
      match r with
      | Some v => ret (Some v)
      | None => for_return rest body
      end
  end.

(** The three nested loops of [autodetect] and its final [return None]. *)
Definition scan (ports : list string) (slave_id : Z) (endianness : string)
  (probe : reg) : IO Dev (option (string * Z * string)) :=
  for_return ports (fun port =>
    for_return COMMON_PARITIES (fun parity =>
      for_return COMMON_BAUDS (fun baud =>
        ok <- _probe_once port baud parity slave_id endianness probe ;;
        if ok then ret (Some (port, baud, parity)) else ret None))).

Definition autodetect : IO Dev (option (string * Z * string)) :=
  cfg <- load_config ;;
  slave_id <- lift (getitem (c_slave_id cfg)) ;;
  endianness <- lift (getitem (c_endianness cfg)) ;;
  probe <- lift (match c_probe cfg with
                 | Some p =>
                     if reg_truthy p then Ok p
                     else match getitem (c_registers cfg) with
                          | Ok regs => index regs 0
                          | Raise e => Raise e
                          end
                 | None =>
                     match getitem (c_registers cfg) with
                     | Ok regs => index regs 0
                     | Raise e => Raise e
                     end
                 end) ;;
  ports <- comports ;;
  scan ports slave_id endianness probe.

End WithHost.
End autodetect.

(* ================================================================== *)
(** ** app_gui.py: the write path and the worker loop *)

Module app_gui.
Section WithHost.
Context {Dev : Type} {host : Host Dev}.

Import modbus_client.

Definition SCAN_INTERVAL_SEC : Q := 2.
Definition SAMPLE_PERIOD_SEC : Q := 3 # 10.

(** What the worker puts on the queue: [("status", text)] and
    [("data", (t, values))]. *)
Inductive event : Type :=
  | Status (text : string)
  | Data (t : Q) (values : dict pyval).

(** The attributes of [App] the write path and the worker use. *)
Record App : Type := mkApp {
  regs : list reg;
  endianness : string;
  slave : Z;
  cli : client;
  connected : bool;
  q : list event
  }.

(** [{str(v).lower(): int(k) for k, v in reg['map'].items()}] *)
Fixpoint inverse_map (items : dict string) (inv : dict Z) : result (dict Z) :=
  match items with
  | [] => Ok inv
  | (k, v) :: rest =>
      match py_int k with
      | Raise e => Raise e
      | Ok n => inverse_map rest (dict_set inv (lower v) n)
      end
  end.

Definition _on_write (self_regs : list reg) (self_cli : client)
  (reg_name : string) (channel : Z) (text : string) : IO Dev unit :=
  reg <- lift (find_reg self_regs reg_name) ;;
  match (match r_type reg with
         | Some t => if String.eqb t "enum16" then r_map reg else None
         | None => None
         end) with
  | Some m =>
      inv <- lift (inverse_map m []) ;;
      iv <- lift (match dict_get (lower text) inv with
                  | Some iv => Ok iv
                  | None =>
                      match py_float text with
                      | Ok f => py_int_of_float f
                      | Raise e => Raise e
                      end
                  end) ;;
      addr <- lift (getitem (r_address reg)) ;;
      write_u16 self_cli addr iv 6
  | None =>
      t <- lift (getitem (r_type reg)) ;;
      iv <- lift (if String.eqb t "bool16" then
                    Ok (if str_in (lower text) ["1"; "true"; "on"; "yes"]
                        then 1 else 0)
                  else
                    match py_float text with
                    | Raise e => Raise e
                    | Ok fv =>
                        let fv := match r_min reg with
                                  | Some lo => py_max (Fin lo) fv
                                  | None => fv
                                  end in
                        let fv := match r_max reg with
                                  | Some hi => py_min (Fin hi) fv
                                  | None => fv
                                  end in
                        scale_to_raw fv reg
                    end) ;;
      addr <- lift (getitem (r_address reg)) ;;
      write_u16 self_cli addr iv 6
  end.

(** One turn of [while not self._stop.is_set()] in [_worker_loop]. *)
Definition worker_turn (self : App) : IO Dev App :=
  try_except
    (if negb (connected self) then
       det <- autodetect.autodetect ;;
       match det with
       | Some (port, baud, parity) =>
           c <- RTUClient_init port baud (slave self) parity ;;
           ret (mkApp (regs self) (endianness self) (slave self)
                  (Some c) true
                  (q self ++
                   [Status ("Connected: " ++ port ++ " " ++ py_str_of_int baud
                            ++ " " ++ parity ++ ", slave="
                            ++ py_str_of_int (slave self))]))
       | None =>
           sleep SCAN_INTERVAL_SEC ;;;
           ret self
       end
     else
       t <- now ;;
       values <- read_all (cli self) (regs self) (endianness self) ;;
       let self' := mkApp (regs self) (endianness self) (slave self)
                      (cli self) (connected self)
                      (q self ++ [Data t values]) in
       sleep SAMPLE_PERIOD_SEC ;;;
       ret self')
    (fun e =>
       let self' := mkApp (regs self) (endianness self) (slave self)
                      None false
                      (q self ++
                       [Status ("Disconnected: " ++ e
                                ++ ". Waiting for device…")]) in
       sleep SCAN_INTERVAL_SEC ;;;
       ret self').

(** [_worker_loop], stopped by the GUI thread after [turns] turns. *)
Fixpoint _worker_loop (turns : nat) (self : App) : IO Dev App :=
  match turns with
  | O => ret self
  | S n =>
      self' <- worker_turn self ;;
      _worker_loop n self'
  end.

End WithHost.
End app_gui.

(* ================================================================== *)
(** ** A bench host

    A simulated instrument used to run the program on concrete inputs: a bank
    of holding registers behind one serial line.  A client can be built on a
    port that is listed, with a baud rate that is not negative and a parity
    that pyserial has a constant for, which are tested in this order.  The
    instrument answers only a client on its own port, baud rate and parity
    setting; reading a register listed in [dead] fails; writing takes an
    unsigned 16-bit value. *)

Module bench.

Record Bench : Type := mkBench {
  mem : Z -> Z;
  dead : list Z;
  ports : list string;
  line : string * Z * string;
  clock : Q;
  cfg : result config
}.

(** [getattr(serial, 'PARITY_' + name)] and the assignment of the result to
    [serial.parity].  pyserial names its parity constants PARITY_NONE,
    PARITY_EVEN, PARITY_ODD, PARITY_MARK and PARITY_SPACE, with the values
    'N', 'E', 'O', 'M' and 'S'; PARITY_NAMES is a dict, which the setter of
    [parity] refuses; the module has no other attribute of that prefix. *)
Definition parity_setting (name : string) : result string :=
  if String.eqb name "NONE" then Ok "N"
  else if String.eqb name "EVEN" then Ok "E"
  else if String.eqb name "ODD" then Ok "O"
  else if String.eqb name "MARK" then Ok "M"
  else if String.eqb name "SPACE" then Ok "S"
  else if String.eqb name "NAMES" then Raise "ValueError"
  else Raise "AttributeError".

Definition on_line (c : RTUClient) (d : Bench) : bool :=
  let '(p, b, par) := line d in
  andb (String.eqb (port c) p)
       (andb (Z.eqb (baudrate c) b)
             (match parity_setting (parity c) with
              | Ok setting => String.eqb setting par
              | Raise _ => false
              end)).

Definition span (address count : Z) : list Z :=
  map (fun i => address + Z.of_nat i) (seq 0 (Z.to_nat count)).

Definition bench_read (c : RTUClient) (address count fn : Z) : IO Bench (list Z) :=
  fun d =>
    if negb (on_line c d) then (Raise "NoResponseError", d)
    else if existsb (fun a => existsb (Z.eqb a) (dead d)) (span address count)
         then (Raise "SlaveReportedException", d)
         else (Ok (map (mem d) (span address count)), d).

Definition bench_write (c : RTUClient) (address value fn : Z) : IO Bench unit :=
  fun d =>
    if negb (on_line c d) then (Raise "NoResponseError", d)
    else if andb (0 <=? value) (value <=? 65535)
         then (Ok tt,
               mkBench (fun a => if Z.eqb a address then value else mem d a)
                       (dead d) (ports d) (line d) (clock d) (cfg d))
         else (Raise "ValueError", d).

(** Signed decimal integers; enough of [int(text)] for the bench. *)
Definition bench_int (text : string) : result Z :=
  match text with
  | EmptyString => Raise "ValueError"
  | _ =>
      match DecimalString.NilZero.int_of_string text with
      | Some i => Ok (Z.of_int i)
      | None => Raise "ValueError"
      end
  end.

(** Decimal integers, "inf" and "nan"; enough of [float(text)] for the bench. *)
Definition bench_float (text : string) : result pyfloat :=
  if String.eqb text "inf" then Ok PInf
  else if String.eqb text "-inf" then Ok NInf
  else if String.eqb text "nan" then Ok NaN
  else match bench_int text with
       | Ok n => Ok (Fin (inject_Z n))
       | Raise e => Raise e
       end.

#[global] Instance bench_host : Host Bench := {
  py_float := bench_float;
  py_int := bench_int;
  instrument_new := fun c d =>
    if existsb (String.eqb (port c)) (ports d) then
      if baudrate c <? 0 then (Raise "ValueError", d)
      else match parity_setting (parity c) with
           | Ok _ => (Ok tt, d)
           | Raise e => (Raise e, d)
           end
    else (Raise "SerialException", d);
  read_registers := bench_read;
  write_register := bench_write;
  comports := fun d => (Ok (ports d), d);
  load_config := fun d => (cfg d, d);
  time_sleep := fun s d =>
    mkBench (mem d) (dead d) (ports d) (line d) (clock d + s)%Q (cfg d);
  time_time := clock
}.

(** A register file given as address/word pairs; other registers hold 0. *)
Fixpoint bank (cells : list (Z * Z)) (a : Z) : Z :=
  match cells with
  | [] => 0
  | (a', w) :: rest => if Z.eqb a a' then w else bank rest a
  end.

(** [RTUClient('COM1', 9600, 1, parity='NONE')] *)
Definition com1 : RTUClient := mkRTUClient "COM1" 9600 1 "NONE" 1 (2 # 10).

(** The instrument on COM1 at 9600 baud, no parity (the setting 'N'). *)
Definition device (cells : list (Z * Z)) (dead : list Z) : Bench :=
  mkBench (bank cells) dead ["COM1"] ("COM1", 9600, "N") 0 (Raise "FileNotFoundError").

(** The same host once the instrument is unplugged: no port is left and
    every transaction fails. *)
Definition unplugged : Bench :=
  mkBench (bank []) [] [] ("", 0, "") 0 (Raise "FileNotFoundError").

(** The host with the configuration file in place and a given list of
    serial ports. *)
Definition installed (d : Bench) (c : config) (ps : list string) : Bench :=
  mkBench (mem d) (dead d) ps (line d) (clock d) (Ok c).

(** A descriptor with a symbol map. *)
Definition symbolic (name type : string) (address : Z) (map : dict string) : reg :=
  mkReg (Some name) (Some type) None (Some address) None None (Some map) None None.

(** A numeric descriptor with bounds for the write path. *)
Definition bounded (name type : string) (address : Z) (scale lo hi : Q) : reg :=
  mkReg (Some name) (Some type) None (Some address) (Some scale) None None
        (Some lo) (Some hi).

(** A plain numeric descriptor. *)
Definition numeric (name type : string) (address : Z) (scale : Q) : reg :=
  mkReg (Some name) (Some type) None (Some address) (Some scale) None None None None.

End bench.


(* ================================================================== *)
(** ** Vocabulary of the properties *)

(** The descriptor carries a ['name'] key. *)
Definition named (r : reg) : Prop := exists n, r_name r = Some n.

(** The names of a register list, in list order. *)
Definition reg_names (regs : list reg) : list string :=
  flat_map (fun r => match r_name r with Some n => [n] | None => [] end) regs.

(** A list without its repetitions: every element where it first occurs. *)
Fixpoint first_occurrences (seen l : list string) : list string :=
  match l with
  | [] => []
  | x :: l' =>
      if existsb (String.eqb x) seen then first_occurrences seen l'
      else x :: first_occurrences (x :: seen) l'
  end.

(** One entry per descriptor, in the order of the register list. *)
Definition one_entry_per_descriptor (regs : list reg) (out : dict pyval) : Prop :=
  dict_keys out = reg_names regs.

(** The types for which the acquisition pass of modbus_client.py reads the
    line, and the number of words it asks for. *)
Definition word16_types : list string :=
  ["uint16"; "int16"; "enum16"; "bool16"; "command16"; "bitmask16"].

Definition multiword_types : list string :=
  ["uint32"; "int32"; "ip32"; "mac48"; "ascii"].

Definition reads_line (t : string) : bool :=
  orb (str_in t word16_types) (str_in t multiword_types).

Definition words_asked (r : reg) (t : string) : Z :=
  if str_in t word16_types then 1
  else if String.eqb t "ascii" then get (r_words r) 1
  else if String.eqb t "mac48" then 3
  else 2.

(** The type of the descriptor is none of the two that only the pass of
    modbus_client.py decodes. *)
Definition common_type (r : reg) : Prop :=
  forall t, r_type r = Some t -> t <> "bitmask16" /\ t <> "mac48".

(** The value a 32-bit descriptor stands for, from its two words. *)
Definition unsigned32 (endianness : string) (w0 w1 : Z) : Z :=
  if String.eqb endianness "big" then w0 * 2 ^ 16 + w1 else w1 * 2 ^ 16 + w0.

Definition value32 (t endianness : string) (w0 w1 : Z) : Z :=
  let u := unsigned32 endianness w0 w1 in
  if andb (String.eqb t "int32") (Z.testbit u 31) then u - 2 ^ 32 else u.


(** The entry of a mapping is an error marker. *)
Definition is_error_marker (val : option pyval) : bool :=
  match val with
  | Some (VStr s) => startswith s "ERR:"
  | _ => false
  end.

(** Discovery: the candidates in the order the three loops visit them. *)
Definition candidates (ports : list string) : list (string * Z * string) :=
  flat_map (fun port =>
    flat_map (fun parity =>
      map (fun baud => (port, baud, parity)) autodetect.COMMON_BAUDS)
      autodetect.COMMON_PARITIES)
    ports.

Section Discovery.
Context {Dev : Type} {host : Host Dev}.

Definition probe (slave_id : Z) (endianness : string) (probe_reg : reg)
  (c : string * Z * string) : IO Dev bool :=
  let '(port, baud, parity) := c in
  autodetect._probe_once port baud parity slave_id endianness probe_reg.

(** What the innermost loop body does with one candidate. *)
Definition offer (slave_id : Z) (endianness : string) (probe_reg : reg)
  (c : string * Z * string) : IO Dev (option (string * Z * string)) :=
  ok <- probe slave_id endianness probe_reg c ;;
  if ok then ret (Some c) else ret None.

(** Every candidate of the list is probed in turn and rejected, taking the
    host from [d] to [d']. *)
Inductive all_rejected (slave_id : Z) (endianness : string) (probe_reg : reg)
  : list (string * Z * string) -> Dev -> Dev -> Prop :=
| rejected_nil : forall d, all_rejected slave_id endianness probe_reg [] d d
| rejected_cons : forall c cs d d1 d2,
    probe slave_id endianness probe_reg c d = (Ok false, d1) ->
    all_rejected slave_id endianness probe_reg cs d1 d2 ->
    all_rejected slave_id endianness probe_reg (c :: cs) d d2.

End Discovery.

(* ================================================================== *)
(** ** More Python: numbers and sequences *)

(** [max(a, b)] and [min(a, b)] on finite floats. *)
Definition max2 (a b : Q) : Q := if Qlt_le_dec a b then b else a.
Definition min2 (a b : Q) : Q := if Qlt_le_dec b a then b else a.

(** [min(seq)] and [max(seq)]: the first least (greatest) element; ValueError
    on an empty sequence. *)
Definition seq_min (l : list Q) : result Q :=
  match l with
  | [] => Raise "ValueError"
  | a :: rest => Ok (fold_left (fun m v => if Qlt_le_dec v m then v else m) rest a)
  end.

Definition seq_max (l : list Q) : result Q :=
  match l with
  | [] => Raise "ValueError"
  | a :: rest => Ok (fold_left (fun m v => if Qlt_le_dec m v then v else m) rest a)
  end.

(** [seq[-1]] *)
Definition seq_last (l : list Q) : result Q :=
  match rev l with
  | [] => Raise "IndexError"
  | a :: _ => Ok a
  end.

(** [deque(maxlen=n).append(v)]: the oldest element leaves a full deque. *)
Definition deque_append (maxlen : nat) (l : list Q) (v : Q) : list Q :=
  skipn (List.length (l ++ [v]) - maxlen) (l ++ [v]).

(** A buffer of at most [maxlen] samples after it took [v]: the old samples
    in their order with [v] at the end, less the oldest ones that no longer
    fit. *)
Definition takes_sample (maxlen : nat) (old : list Q) (v : Q) (new : list Q)
  : Prop :=
  (exists dropped, old ++ [v] = dropped ++ new) /\
  List.length new = Nat.min maxlen (S (List.length old)).

(** Truth value of [d.get(k)]: None, False, zero, the empty string and the
    empty list are false. *)
Definition truthy (v : option pyval) : bool :=
  match v with
  | None => false
  | Some (VBool b) => b
  | Some (VInt z) => negb (Z.eqb z 0)
  | Some (VFloat q) => negb (Qeq_bool q 0)
  | Some (VStr s) => negb (String.eqb s "")
  | Some (VList l) => match l with [] => false | _ => true end
  end.

(** [a or b] *)
Definition py_or (a b : option pyval) : option pyval :=
  if truthy a then a else b.

(** [float(v) if isinstance(v, (int, float)) else None]; booleans are ints. *)
Definition number_of (v : option pyval) : option Q :=
  match v with
  | Some (VBool b) => Some (if b then 1 else 0)%Q
  | Some (VInt z) => Some (inject_Z z)
  | Some (VFloat q) => Some q
  | _ => None
  end.

(** [s.strip()] on ASCII text. *)
Definition strip_text (s : string) : string :=
  string_of_list_ascii (modbus_client.strip (list_ascii_of_string s)).

(* ================================================================== *)
(** ** app.py: waiting for the device and sampling the rate *)

Module app_main.
Section WithHost.
Context {Dev : Type} {host : Host Dev}.

Import modbus_client.






(** What [value_fn] of [main] returns, with the state it keeps: the sample
    [(ts, rate)], the new [last_print] and the mapping it printed, if any. *)
Record sample : Type := mkSample {
  ts : Q;
  rate : Q;
  last_print : Q;
  printed : option (dict pyval)
}.

Definition value_fn (cli : client) (regs : list reg) (endianness : string)
  (last_print : Q) : IO Dev sample :=
  data <- app.read_all cli regs endianness ;;
  ts <- now ;;
  let due := if Qlt_le_dec 1 (ts - last_print) then true else false in
  let rate := py_or (py_or (dict_get "CH1_Rate_A_per_s" data)
                           (dict_get "Rate_A_per_s" data))
                    (Some (VFloat 0)) in
  let rate := match number_of rate with
              | Some x => x
              | None => 0%Q
              end in
  ret (mkSample ts rate
         (if due then ts else last_print)
         (if due then Some data else None)).

End WithHost.
End app_main.

(* ================================================================== *)
(** ** app_gui.py: indicators, plot window and settings panel *)

Module app_gui_view.
Section WithHost.
Context {Dev : Type} {host : Host Dev}.

Import modbus_client app_gui.

Definition safe_number (v : option pyval) : option Q := number_of v.

Definition compute_crystal_usage (values : dict pyval) (ch_prefix : string) : Q :=
  let f_cur := safe_number (dict_get (ch_prefix ++ "_Frequency_0p01Hz")%string values) in
  let f_min := safe_number (dict_get (ch_prefix ++ "_MinFreq_Hz")%string values) in
  let f_max := safe_number (dict_get (ch_prefix ++ "_MaxFreq_Hz")%string values) in
  match f_cur, f_min, f_max with
  | Some f_cur, Some f_min, Some f_max =>
      if Qle_bool f_max f_min then 0%Q
      else
        let usage := ((f_max - f_cur) / (f_max - f_min))%Q in
        (max2 0 (min2 1 usage) * 100)%Q
  | _, _, _ => 0%Q
  end.

(** The state [_update_plot] keeps in [App] (deques, oldest sample first) and
    the limits it hands to the axes. *)
Record Plot : Type := mkPlot {
  t0 : option Q;
  xs : list Q;
  y1 : list Q;
  y2 : list Q
}.

Record limits : Type := mkLimits {
  left : Q;
  right : Q;
  bottom : Q;
  top : Q
}.

Definition WINDOW_SEC : Q := 120.
Definition MAXLEN : nat := 3600.

(** [v if isinstance(v, (int, float)) else 0.0] *)
Definition thickness (v : option pyval) : Q :=
  match number_of v with
  | Some x => x
  | None => 0%Q
  end.

Definition _update_plot (self : Plot) (ts : Q) (v : dict pyval)
  : result (Plot * limits) :=
  let x := match t0 self with None => 0%Q | Some t => (ts - t)%Q end in
  let t0' := match t0 self with None => Some ts | Some t => Some t end in
  let t1 := thickness (dict_get "CH1_Thickness_A" v) in
  let t2 := thickness (dict_get "CH2_Thickness_A" v) in
  let self' := mkPlot t0' (deque_append MAXLEN (xs self) x)
                 (deque_append MAXLEN (y1 self) t1)
                 (deque_append MAXLEN (y2 self) t2) in
  match seq_last (xs self') with
  | Raise e => Raise e
  | Ok x_last =>
      let right := max2 10 x_last in
      let left := if Qle_bool right WINDOW_SEC then 0%Q else (right - WINDOW_SEC)%Q in
      match seq_min (y1 self'), seq_min (y2 self'),
            seq_max (y1 self'), seq_max (y2 self') with
      | Ok m1, Ok m2, Ok M1, Ok M2 =>
          let ymin := min2 m1 m2 in
          let ymax := max2 M1 M2 in
          let ymax := if Qeq_bool ymin ymax then (ymin + 1)%Q else ymax in
          let pad := ((5 # 100) * (ymax - ymin))%Q in
          Ok (self', mkLimits left right (ymin - pad)%Q (ymax + pad)%Q)
      | Raise e, _, _, _ => Raise e
      | _, Raise e, _, _ => Raise e
      | _, _, Raise e, _ => Raise e
      | _, _, _, Raise e => Raise e
      end
  end.

(** [self.connected and self.cli is not None] *)
Definition _is_connected (self : App) : bool :=
  andb (connected self) (match cli self with Some _ => true | None => false end).

(** [SettingsPanel._commit]: [vars] holds the text of each field; the result
    is the error dialog shown, if any, as the register and the exception. *)
Definition _commit (building : bool) (self : App) (vars : dict string)
  (reg_name : string) (col : Z) : IO Dev (option (string * exn)) :=
  if orb building (negb (_is_connected self)) then ret None
  else
    match dict_get reg_name vars with
    | None => ret None
    | Some content =>
        let text := strip_text content in
        let ch := if Z.eqb col 1 then 1 else 2 in
        try_except
          (_on_write (regs self) (cli self) reg_name ch text ;;;
           ret None)
          (fun e => ret (Some (reg_name, e)))
    end.

End WithHost.
End app_gui_view.

(* ================================================================== *)
(** ** plotter.py *)

Module plotter.
Section WithHost.
Context {Dev : Type} {host : Host Dev}.

(** The two deques of [LivePlot], oldest sample first. *)
Record LivePlot : Type := mkLivePlot {
  x : list Q;
  y : list Q
}.

Definition MAXLEN : nat := 1200.

(** The body of [while self._running] in [_loop]. *)
Definition loop_turn (value_fn : IO Dev (Q * Q)) (t0 : Q) (self : LivePlot)
  : IO Dev LivePlot :=
  s <- value_fn ;;
  let self' := mkLivePlot (deque_append MAXLEN (x self) (fst s - t0)%Q)
                          (deque_append MAXLEN (y self) (snd s)) in
  sleep (1 # 10) ;;;
  ret self'.

Fixpoint loop_turns (turns : nat) (value_fn : IO Dev (Q * Q)) (t0 : Q)
  (self : LivePlot) : IO Dev LivePlot :=
  match turns with
  | O => ret self
  | S n =>
      self' <- loop_turn value_fn t0 self ;;
      loop_turns n value_fn t0 self'
  end.

(** [_loop], stopped by [stop] after [turns] turns. *)
Definition _loop (turns : nat) (value_fn : IO Dev (Q * Q)) (self : LivePlot)
  : IO Dev LivePlot :=
  t0 <- now ;;
  loop_turns turns value_fn t0 self.

(** The limits [update] sets: [None] while there is no sample. *)
Definition update (self : LivePlot) : result (option ((Q * Q) * (Q * Q))) :=
  match x self with
  | [] => Ok None
  | x0 :: _ =>
      match seq_last (x self) with
      | Raise e => Raise e
      | Ok x_last =>
          let xlim := (max2 0 x0, max2 10 x_last) in
          match (match y self with [] => Ok (-1)%Q | _ => seq_min (y self) end),
                (match y self with [] => Ok 1%Q | _ => seq_max (y self) end) with
          | Ok ymin, Ok ymax =>
              let pad := ((1 # 10) * (ymax - ymin + 1))%Q in
              Ok (Some (xlim, ((ymin - pad)%Q, (ymax + pad)%Q)))
          | Raise e, _ => Raise e
          | _, Raise e => Raise e
          end
      end
  end.

End WithHost.
End plotter.

(** What turns of the worker loop keep of [App]: the configuration, the
    events already queued (at most [n] are added), and a client whenever the
    loop is connected. *)
Definition turns_keep (self self' : app_gui.App) (n : nat) : Prop :=
  app_gui.regs self' = app_gui.regs self /\
  app_gui.endianness self' = app_gui.endianness self /\
  app_gui.slave self' = app_gui.slave self /\
  (exists events,
      app_gui.q self' = app_gui.q self ++ events /\
      (List.length events <= n)%nat) /\
  ((app_gui.connected self = true -> app_gui.cli self <> None) ->
   app_gui.connected self' = true -> app_gui.cli self' <> None).

(** A line that answers every request with no word at all. *)
Definition silent_host : Host unit := {|
  py_float := bench.bench_float;
  py_int := bench.bench_int;
  instrument_new := fun c d =>
    match bench.parity_setting (parity c) with
    | Ok _ => (Ok tt, d)
    | Raise e => (Raise e, d)
    end;
  read_registers := fun _ _ _ _ d => (Ok [], d);
  write_register := fun _ _ _ _ d => (Ok tt, d);
  comports := fun d => (Ok [], d);
  load_config := fun d => (Raise "FileNotFoundError", d);
  time_sleep := fun _ d => d;
  time_time := fun _ => 0%Q
|}.

(** The registers that hold a text, two characters a word, high byte first,
    padded with NUL to a whole word. *)
Fixpoint pack_ascii (chars : list ascii) : list Z :=
  match chars with
  | [] => []
  | [c] => [Z.of_N (N_of_ascii c) * 256]
  | c1 :: c2 :: rest =>
      (Z.of_N (N_of_ascii c1) * 256 + Z.of_N (N_of_ascii c2)) :: pack_ascii rest
  end.

(** A character that is ASCII, not NUL and not white space. *)
Definition visible (c : ascii) : bool :=
  andb (negb (Ascii.eqb c zero))
       (andb (N.ltb (N_of_ascii c) 128) (negb (modbus_client.isspace c))).

(* ================================================================== *)
(** * Properties *)

(** ** The pass on the bench *)

Example ip32_on_bench :
  fst (modbus_client.read_all (Some bench.com1)
         [bench.numeric "ip" "ip32" 40 1] "big"
         (bench.device [(40, 0x0A00); (41, 0x0001)] []))
  = Ok [("ip", VStr "10.0.0.1")].
Proof. reflexivity. Qed.

Example ascii_on_bench :
  fst (modbus_client.read_all (Some bench.com1)
         [mkReg (Some "id") (Some "ascii") None (Some 50) None (Some 2) None None None]
         "big" (bench.device [(50, 0x4142); (51, 0x4300)] []))
  = Ok [("id", VStr "ABC")].
Proof. reflexivity. Qed.

Example bitmask16_on_bench :
  fst (modbus_client.read_all (Some bench.com1)
         [bench.symbolic "flags" "bitmask16" 5 [("1", "RUNNING"); ("2", "FAULT")]]
         "big" (bench.device [(5, 0)] []))
  = Ok [("flags", VList [])].
Proof. reflexivity. Qed.

Example enum16_on_bench :
  fst (modbus_client.read_all (Some bench.com1)
         [bench.symbolic "osc" "enum16" 6 [("0", "internal"); ("1", "external")];
          bench.symbolic "osc2" "enum16" 7 [("0", "internal"); ("1", "external")]]
         "big" (bench.device [(6, 1); (7, 9)] []))
  = Ok [("osc", VStr "external"); ("osc2", VInt 9)].
Proof. reflexivity. Qed.

Example unknown_type_on_bench :
  fst (modbus_client.read_all (Some bench.com1)
         [bench.numeric "f" "float32" 8 1; bench.numeric "u" "uint16" 9 (1 # 10)]
         "big" (bench.device [(9, 25)] []))
  = Ok [("f", VStr "UNSUPPORTED"); ("u", VFloat (25 # 10))].
Proof. reflexivity. Qed.

(** ** Dicts *)

Lemma dict_get_set_same {V} (d : dict V) k v :
  dict_get k (dict_set d k v) = Some v.
Proof.
  induction d as [|[k' v'] d IH]; simpl.
  - now rewrite String.eqb_refl.
  - destruct (String.eqb k k') eqn:E; simpl; rewrite E; auto.
Qed.

Lemma dict_get_set_other {V} (d : dict V) k k' v :
  k' <> k -> dict_get k' (dict_set d k v) = dict_get k' d.
Proof.
  intros Hne. induction d as [|[k0 v0] d IH]; simpl.
  - destruct (String.eqb_spec k' k); congruence.
  - destruct (String.eqb_spec k k0); simpl.
    + subst. destruct (String.eqb_spec k' k0); congruence.
    + now rewrite IH.
Qed.

Lemma dict_keys_set {V} (d : dict V) k v :
  dict_keys (dict_set d k v) =
  if existsb (String.eqb k) (dict_keys d) then dict_keys d else dict_keys d ++ [k].
Proof.
  unfold dict_keys. induction d as [|[k0 v0] d IH]; simpl; auto.
  destruct (String.eqb k k0) eqn:E; simpl; auto.
  rewrite IH. now destruct (existsb (String.eqb k) (map fst d)).
Qed.

Lemma existsb_eqb_In (x : string) (l : list string) :
  existsb (String.eqb x) l = true <-> In x l.
Proof.
  rewrite existsb_exists. split.
  - intros (y & Hy & E). apply String.eqb_eq in E. now subst.
  - intros H. exists x. split; auto. apply String.eqb_refl.
Qed.

Lemma dict_mem_keys {V} (d : dict V) k :
  dict_mem k d = true <-> In k (dict_keys d).
Proof.
  unfold dict_mem, dict_keys. induction d as [|[k0 v0] d IH]; simpl.
  - split; [discriminate | tauto].
  - destruct (String.eqb_spec k k0).
    + subst. split; auto.
    + rewrite IH. split; [tauto | intros [H|H]; congruence].
Qed.

Lemma first_occurrences_ext (s1 s2 l : list string) :
  (forall x, In x s1 <-> In x s2) ->
  first_occurrences s1 l = first_occurrences s2 l.
Proof.
  revert s1 s2. induction l as [|x l IH]; intros s1 s2 H; simpl; auto.
  assert (E : existsb (String.eqb x) s1 = existsb (String.eqb x) s2).
  { apply eq_true_iff_eq. rewrite !existsb_eqb_In. apply H. }
  rewrite E. destruct (existsb (String.eqb x) s2).
  - now apply IH.
  - f_equal. apply IH. intros y. simpl. rewrite H. tauto.
Qed.

Lemma first_occurrences_NoDup (l seen : list string) :
  NoDup l -> (forall x, In x l -> ~ In x seen) ->
  first_occurrences seen l = l.
Proof.
  revert seen. induction l as [|x l IH]; intros seen Hnd Hs; simpl; auto.
  inversion Hnd as [|? ? Hx Hl]; subst.
  destruct (existsb (String.eqb x) seen) eqn:E.
  - apply existsb_eqb_In in E. exfalso. apply (Hs x); simpl; auto.
  - f_equal. apply IH; auto.
    intros y Hy [<-|Hy']; [contradiction|]. apply (Hs y); simpl; auto.
Qed.

(** ** The acquisition pass of modbus_client.py *)

Section Acquisition.
Context {Dev : Type} {host : Host Dev}.

Import modbus_client.

Lemma read_all_step_named cli endianness out r n d :
  r_name r = Some n ->
  read_all_step cli endianness out r d =
  match reg_value cli r endianness d with
  | (Ok v, d') => (Ok (dict_set out n v), d')
  | (Raise x, d') => (Ok (dict_set out n (VStr ("ERR:" ++ x))), d')
  end.
Proof.
  intros Hn. unfold read_all_step, try_except, bind, lift, ret.
  rewrite Hn. simpl. now destruct (reg_value cli r endianness d) as [[v|x] d'].
Qed.

Lemma read_all_loop_app cli endianness l1 l2 out d :
  read_all_loop cli (l1 ++ l2) endianness out d =
  match read_all_loop cli l1 endianness out d with
  | (Ok o, d1) => read_all_loop cli l2 endianness o d1
  | (Raise x, d1) => (Raise x, d1)
  end.
Proof.
  revert out d. induction l1 as [|r l1 IH]; intros out d; simpl; auto.
  unfold bind.
  destruct (read_all_step cli endianness out r d) as [[o|x] d1]; auto.
Qed.

Lemma read_all_loop_total cli endianness regs out d :
  Forall named regs ->
  exists out' d', read_all_loop cli regs endianness out d = (Ok out', d').
Proof.
  intros H. revert out d. induction H as [|r regs [n Hn] _ IH]; intros out d; simpl.
  - now exists out, d.
  - unfold bind. rewrite (read_all_step_named _ _ _ _ _ Hn).
    destruct (reg_value cli r endianness d) as [[v|x] d1]; apply IH.
Qed.

Lemma reg_names_cons r regs n :
  r_name r = Some n -> reg_names (r :: regs) = n :: reg_names regs.
Proof. intros H. unfold reg_names. simpl. now rewrite H. Qed.

Lemma reg_names_app l1 l2 : reg_names (l1 ++ l2) = reg_names l1 ++ reg_names l2.
Proof. unfold reg_names. apply flat_map_app. Qed.

(** A pass leaves alone the entries whose names it does not meet. *)
Lemma read_all_loop_get_other cli endianness regs k :
  Forall named regs -> ~ In k (reg_names regs) ->
  forall out d out' d',
    read_all_loop cli regs endianness out d = (Ok out', d') ->
    dict_get k out' = dict_get k out.
Proof.
  intros H. induction H as [|r regs [n Hn] _ IH]; intros Hk out d out' d'; simpl.
  - unfold ret. now intros [= <- <-].
  - rewrite (reg_names_cons r regs Hn) in Hk. simpl in Hk.
    unfold bind. rewrite (read_all_step_named _ _ _ _ _ Hn).
    destruct (reg_value cli r endianness d) as [[v|x] d1]; intros Hl;
      apply IH in Hl; try tauto; rewrite Hl;
      apply dict_get_set_other; intros ->; tauto.
Qed.

(** When the line fails on a register, the body of the [try] fails with the
    same exception. *)
Lemma reg_value_read_raises cli r endianness t a x d d2 :
  r_type r = Some t -> reads_line t = true -> r_address r = Some a ->
  read_regs cli a (words_asked r t) (get (r_function r) 3) d = (Raise x, d2) ->
  reg_value cli r endianness d = (Raise x, d2).
Proof.
  intros Ht Hr Ha Hread.
  unfold reg_value, bind, lift, getitem. rewrite Ht, Ha. cbv beta iota.
  unfold reads_line, words_asked in *.
  fold word16_types. fold multiword_types.
  destruct (str_in t word16_types).
  - now rewrite Hread.
  - cbn [orb] in Hr. rewrite Hr.
    destruct (String.eqb t "ascii").
    + now rewrite Hread.
    + destruct (String.eqb t "mac48"); now rewrite Hread.
Qed.

(** C1. Whatever the register list and the transport, [read_all] returns a
    mapping and never raises.  Each register gets the value of its own turn:
    its decoded value when its read and transform succeed, and the marker
    ["ERR:<exception>"] when they raise, as happens when the transport fails
    on that register; the turns after a failure run as they would from a
    mapping holding the marker.  (A later descriptor of the same name would
    overwrite the entry, hence the side condition on [post].) *)
Theorem read_all_isolates_register_failure :
  forall cli endianness pre r post n d,
    Forall named (pre ++ r :: post) ->
    r_name r = Some n ->
    ~ In n (reg_names post) ->
    exists out1 d1 out d3,
      read_all cli pre endianness d = (Ok out1, d1) /\
      read_all cli (pre ++ r :: post) endianness d = (Ok out, d3) /\
      (forall v d2, reg_value cli r endianness d1 = (Ok v, d2) ->
         dict_get n out = Some v) /\
      (forall x d2, reg_value cli r endianness d1 = (Raise x, d2) ->
         dict_get n out = Some (VStr ("ERR:" ++ x)) /\
         read_all_loop cli post endianness
           (dict_set out1 n (VStr ("ERR:" ++ x))) d2 = (Ok out, d3)) /\
      (forall t a x d2,
         r_type r = Some t -> reads_line t = true -> r_address r = Some a ->
         read_regs cli a (words_asked r t) (get (r_function r) 3) d1
           = (Raise x, d2) ->
         dict_get n out = Some (VStr ("ERR:" ++ x))).
Proof.
  intros cli endianness pre r post n d Hall Hn Hpost.
  apply Forall_app in Hall as [Hpre Hrest].
  inversion Hrest as [|? ? _ Hpost_named]; subst.
  destruct (read_all_loop_total cli endianness [] d Hpre) as (out1 & d1 & Hrun1).
  assert (Hsplit : forall v d2 (o : dict pyval),
             o = dict_set out1 n v ->
             exists out d3,
               read_all_loop cli post endianness o d2 = (Ok out, d3) /\
               dict_get n out = Some v).
  { intros v d2 o ->.
    destruct (read_all_loop_total cli endianness (dict_set out1 n v) d2 Hpost_named)
      as (out & d3 & Hrun).
    exists out, d3. split; auto.
    rewrite (read_all_loop_get_other cli endianness n Hpost_named Hpost _ _ Hrun).
    apply dict_get_set_same. }
  assert (Hwhole : read_all cli (pre ++ r :: post) endianness d =
                   match reg_value cli r endianness d1 with
                   | (Ok v, d2) =>
                       read_all_loop cli post endianness (dict_set out1 n v) d2
                   | (Raise x, d2) =>
                       read_all_loop cli post endianness
                         (dict_set out1 n (VStr ("ERR:" ++ x))) d2
                   end).
  { unfold read_all. rewrite read_all_loop_app, Hrun1. simpl.
    unfold bind. rewrite (read_all_step_named _ _ _ _ _ Hn).
    now destruct (reg_value cli r endianness d1) as [[v|x] d2]. }
  destruct (reg_value cli r endianness d1) as [[v|x] d2] eqn:Hval.
  - destruct (Hsplit v d2 _ eq_refl) as (out & d3 & Hrun & Hget).
    exists out1, d1, out, d3. rewrite Hwhole.
    split; [exact Hrun1|]. split; [exact Hrun|].
    split; [|split].
    + intros v' d2' E. rewrite Hval in E. injection E as <- <-. exact Hget.
    + intros x d2' E. rewrite Hval in E. discriminate E.
    + intros t a x d2' Ht Hr Ha Hread.
      rewrite (reg_value_read_raises cli r endianness d1 Ht Hr Ha Hread) in Hval.
      discriminate Hval.
  - destruct (Hsplit (VStr ("ERR:" ++ x)) d2 _ eq_refl) as (out & d3 & Hrun & Hget).
    exists out1, d1, out, d3. rewrite Hwhole.
    split; [exact Hrun1|]. split; [exact Hrun|].
    split; [|split].
    + intros v d2' E. rewrite Hval in E. discriminate E.
    + intros x' d2' E. rewrite Hval in E. injection E as <- <-.
      split; [exact Hget | exact Hrun].
    + intros t a x' d2' Ht Hr Ha Hread.
      rewrite (reg_value_read_raises cli r endianness d1 Ht Hr Ha Hread) in Hval.
      injection Hval as <- <-. exact Hget.
Qed.

End Acquisition.

(** The marker on the bench: register 10 is dead, its neighbours decode. *)
Lemma read_all_isolates_register_failure_witness :
  exists out d3,
    modbus_client.read_all (Some bench.com1)
      ([bench.numeric "a" "uint16" 9 1] ++
       bench.numeric "b" "uint16" 10 1 :: [bench.numeric "c" "uint16" 11 1])
      "big" (bench.device [(9, 7); (10, 8); (11, 9)] [10]) = (Ok out, d3) /\
    dict_get "b" out = Some (VStr "ERR:SlaveReportedException").
Proof.
  destruct (@read_all_isolates_register_failure bench.Bench bench.bench_host
              (Some bench.com1) "big"
              [bench.numeric "a" "uint16" 9 1]
              (bench.numeric "b" "uint16" 10 1)
              [bench.numeric "c" "uint16" 11 1]
              "b" (bench.device [(9, 7); (10, 8); (11, 9)] [10]))
    as (out1 & d1 & out & d3 & Hpre & Hall & _ & _ & Hline).
  - repeat constructor; eexists; reflexivity.
  - reflexivity.
  - simpl. intros [H|[]]. discriminate H.
  - exists out, d3. split; [exact Hall|].
    vm_compute in Hpre. injection Hpre as <- <-.
    eapply Hline; reflexivity.
Defined.

Section AcquisitionKeys.
Context {Dev : Type} {host : Host Dev}.

Import modbus_client.

Lemma read_all_loop_keys cli endianness regs :
  Forall named regs ->
  forall out d out' d',
    read_all_loop cli regs endianness out d = (Ok out', d') ->
    dict_keys out' =
    dict_keys out ++ first_occurrences (dict_keys out) (reg_names regs).
Proof.
  intros H. induction H as [|r regs [n Hn] _ IH]; intros out d out' d'.
  - simpl. unfold ret. intros [= <- <-]. now rewrite app_nil_r.
  - rewrite (reg_names_cons r regs Hn). cbn [read_all_loop first_occurrences].
    unfold bind. rewrite (read_all_step_named cli endianness out r d Hn).
    assert (Hstep : forall v d1,
               read_all_loop cli regs endianness (dict_set out n v) d1 = (Ok out', d') ->
               dict_keys out' =
               dict_keys out ++
               (if existsb (String.eqb n) (dict_keys out)
                then first_occurrences (dict_keys out) (reg_names regs)
                else n :: first_occurrences (n :: dict_keys out) (reg_names regs))).
    { intros v d1 Hl. apply IH in Hl. rewrite Hl, dict_keys_set.
      destruct (existsb (String.eqb n) (dict_keys out)); auto.
      rewrite <- app_assoc. simpl. do 2 f_equal.
      apply first_occurrences_ext. intros x. rewrite in_app_iff. simpl. tauto. }
    destruct (reg_value cli r endianness d) as [[v|x] d1]; apply Hstep.
Qed.

Lemma first_occurrences_In (x : string) (l seen : list string) :
  In x l -> In x seen \/ In x (first_occurrences seen l).
Proof.
  revert seen. induction l as [|y l IH]; intros seen; simpl; [tauto|].
  intros [->|Hx].
  - destruct (existsb (String.eqb x) seen) eqn:E.
    + left. now apply existsb_eqb_In.
    + right. now left.
  - destruct (existsb (String.eqb y) seen).
    + now apply IH.
    + destruct (IH (y :: seen) Hx) as [[->|H]|H]; simpl; auto.
Qed.

Lemma In_reg_names (regs : list reg) r n :
  In r regs -> r_name r = Some n -> In n (reg_names regs).
Proof.
  intros Hin Hn. unfold reg_names. apply in_flat_map.
  exists r. split; auto. rewrite Hn. now left.
Qed.

(** C4, as the code has it.  The mapping is keyed by name: its keys are the
    names of the register list without repetition, each where it first
    occurs, and every descriptor finds its name among them, whether or not
    its decode failed.  When the names are pairwise distinct this is one
    entry per descriptor in the order of the list. *)
Theorem read_all_keys_are_names :
  forall cli endianness regs d,
    Forall named regs ->
    exists out d',
      read_all cli regs endianness d = (Ok out, d') /\
      dict_keys out = first_occurrences [] (reg_names regs) /\
      NoDup (dict_keys out) /\
      (forall r n, In r regs -> r_name r = Some n -> dict_mem n out = true) /\
      (NoDup (reg_names regs) -> one_entry_per_descriptor regs out).
Proof.
  intros cli endianness regs d Hall.
  destruct (read_all_loop_total cli endianness [] d Hall) as (out & d' & Hrun).
  exists out, d'. split; [exact Hrun|].
  assert (Hkeys : dict_keys out = first_occurrences [] (reg_names regs)).
  { now rewrite (read_all_loop_keys cli endianness Hall _ _ Hrun). }
  split; [exact Hkeys|]. split; [|split].
  - rewrite Hkeys. generalize (reg_names regs) as l.
    assert (G : forall l seen,
               NoDup (first_occurrences seen l) /\
               (forall x, In x (first_occurrences seen l) -> ~ In x seen)).
    { induction l as [|x l IH]; intros seen; simpl.
      - split; [constructor | tauto].
      - destruct (existsb (String.eqb x) seen) eqn:E; [apply IH|].
        destruct (IH (x :: seen)) as [Hnd Hfresh]. split.
        + constructor; auto. intros Hx. apply (Hfresh x Hx). now left.
        + intros y [<-|Hy].
          * intros Hs. apply existsb_eqb_In in Hs. congruence.
          * intros Hs. apply (Hfresh y Hy). now right. }
    intros l. apply G.
  - intros r n Hin Hn. apply dict_mem_keys. rewrite Hkeys.
    destruct (first_occurrences_In n (reg_names regs) [] (In_reg_names regs r Hin Hn))
      as [[]|H]; exact H.
  - intros Hnd. unfold one_entry_per_descriptor. rewrite Hkeys.
    apply first_occurrences_NoDup; auto.
Qed.

End AcquisitionKeys.

(** Two copies of one descriptor share a single entry. *)
Lemma read_all_duplicates_share_entry :
  exists out d',
    modbus_client.read_all (Some bench.com1)
      [bench.numeric "a" "uint16" 10 1; bench.numeric "a" "uint16" 10 1]
      "big" (bench.device [(10, 8)] []) = (Ok out, d') /\
    ~ one_entry_per_descriptor
        [bench.numeric "a" "uint16" 10 1; bench.numeric "a" "uint16" 10 1] out.
Proof.
  eexists. eexists. split; [vm_compute; reflexivity|].
  unfold one_entry_per_descriptor. vm_compute. discriminate.
Qed.

Lemma read_all_keys_are_names_witness :
  exists out d',
    modbus_client.read_all (Some bench.com1)
      [bench.numeric "a" "uint16" 10 1; bench.numeric "b" "uint16" 10 1]
      "big" (bench.device [(10, 8)] [10]) = (Ok out, d') /\
    dict_keys out = ["a"; "b"].
Proof.
  destruct (@read_all_keys_are_names bench.Bench bench.bench_host
              (Some bench.com1) "big"
              [bench.numeric "a" "uint16" 10 1; bench.numeric "b" "uint16" 10 1]
              (bench.device [(10, 8)] [10]))
    as (out & d' & Hrun & Hkeys & _).
  - repeat constructor; eexists; reflexivity.
  - exists out, d'. split; [exact Hrun | exact Hkeys].
Defined.

(** ** Sign of 16-bit words *)

Section Word16.
Context {Dev : Type} {host : Host Dev}.

Import modbus_client.

(** An int16 descriptor is decoded by the branch that decodes uint16: the
    word is multiplied by the scale as it came from the line. *)
Lemma reg_value_int16 cli r endianness a w ws d d' :
  r_type r = Some "int16" -> r_address r = Some a ->
  read_regs cli a 1 (get (r_function r) 3) d = (Ok (w :: ws), d') ->
  reg_value cli r endianness d =
  (Ok (VFloat (inject_Z w * get (r_scale r) 1%Q)), d').
Proof.
  intros Ht Ha Hread.
  unfold reg_value, bind, lift, getitem. rewrite Ht, Ha. cbn.
  now rewrite Hread.
Qed.
End Word16.

(** C2. The code does not make the two's-complement conversion the claim
    describes: on the bench an int16 register of scale 1.0 holding 0x8000
    decodes to 32768.0, where the claim has -32768.  (0x7FFF decodes to
    32767.0, as claimed.) *)
Theorem int16_decodes_without_sign :
  fst (modbus_client.read_all (Some bench.com1)
         [bench.numeric "x" "int16" 10 1] "big"
         (bench.device [(10, 0x8000)] []))
  = Ok [("x", VFloat 32768)]
  /\
  fst (modbus_client.read_all (Some bench.com1)
         [bench.numeric "x" "int16" 10 1] "big"
         (bench.device [(10, 0x7FFF)] []))
  = Ok [("x", VFloat 32767)].
Proof. split; reflexivity. Qed.

(** C6. The six bytes are the three high bytes followed by the three low
    bytes, so the words 0x0011, 0x2233, 0x4455 decode to "00:22:44:11:33:55"
    and not to "00:11:22:33:44:55". *)
Theorem mac48_decodes_high_bytes_first :
  fst (modbus_client.read_all (Some bench.com1)
         [bench.numeric "mac" "mac48" 20 1] "big"
         (bench.device [(20, 0x0011); (21, 0x2233); (22, 0x4455)] []))
  = Ok [("mac", VStr "00:22:44:11:33:55")].
Proof. reflexivity. Qed.

(** ** The two acquisition passes *)

Section TwoPasses.
Context {Dev : Type} {host : Host Dev}.

Ltac split_type t :=
  repeat match goal with
    | |- context [String.eqb t ?s] =>
        destruct (String.eqb_spec t s) as [->|?];
        [ try reflexivity; try (exfalso; tauto) | ]
    end.

Lemma reg_value_agree cli r endianness d :
  common_type r ->
  app.reg_value cli r endianness d = modbus_client.reg_value cli r endianness d.
Proof.
  intros Hc. unfold app.reg_value, modbus_client.reg_value, bind, lift, getitem.
  unfold common_type in Hc.
  destruct (r_type r) as [t|]; [|reflexivity].
  destruct (r_address r) as [a|]; [|reflexivity].
  specialize (Hc t eq_refl). destruct Hc as [Hb Hm].
  unfold str_in. cbn [existsb].
  split_type t. reflexivity.
Qed.

Lemma read_all_loop_agree cli endianness regs :
  Forall common_type regs ->
  forall out d,
    app.read_all_loop cli regs endianness out d =
    modbus_client.read_all_loop cli regs endianness out d.
Proof.
  intros H. induction H as [|r regs Hr _ IH]; intros out d; simpl; auto.
  assert (Hstep : app.read_all_step cli endianness out r d =
                  modbus_client.read_all_step cli endianness out r d).
  { unfold app.read_all_step, modbus_client.read_all_step, try_except, bind.
    now rewrite (reg_value_agree cli endianness d Hr). }
  unfold bind. rewrite Hstep.
  destruct (modbus_client.read_all_step cli endianness out r d) as [[o|x] d1]; auto.
Qed.

(** Away from bitmask16 and mac48 the two passes return the same mapping. *)
Lemma read_all_agree cli endianness regs d :
  Forall common_type regs ->
  app.read_all cli regs endianness d = modbus_client.read_all cli regs endianness d.
Proof. intros H. now apply read_all_loop_agree. Qed.
End TwoPasses.

(** C10. The two passes differ: for a mac48 descriptor and for a bitmask16
    descriptor the pass of modbus_client.py decodes the words, where the pass
    of app.py stores 'UNSUPPORTED', on the same registers and the same line. *)
Theorem read_all_copies_differ :
  (fst (modbus_client.read_all (Some bench.com1)
          [bench.numeric "mac" "mac48" 20 1] "big"
          (bench.device [(20, 0x0011); (21, 0x2233); (22, 0x4455)] []))
   = Ok [("mac", VStr "00:22:44:11:33:55")]
   /\
   fst (app.read_all (Some bench.com1)
          [bench.numeric "mac" "mac48" 20 1] "big"
          (bench.device [(20, 0x0011); (21, 0x2233); (22, 0x4455)] []))
   = Ok [("mac", VStr "UNSUPPORTED")])
  /\
  (fst (modbus_client.read_all (Some bench.com1)
          [bench.symbolic "flags" "bitmask16" 5 [("1", "RUNNING"); ("2", "FAULT")]]
          "big" (bench.device [(5, 3)] []))
   = Ok [("flags", VList ["RUNNING"; "FAULT"])]
   /\
   fst (app.read_all (Some bench.com1)
          [bench.symbolic "flags" "bitmask16" 5 [("1", "RUNNING"); ("2", "FAULT")]]
          "big" (bench.device [(5, 3)] []))
   = Ok [("flags", VStr "UNSUPPORTED")]).
Proof. repeat split; reflexivity. Qed.

(** ** 32-bit values *)

Lemma lor_shiftl_16 (h l : Z) :
  0 <= l <= 0xFFFF -> Z.lor (Z.shiftl h 16) l = h * 2 ^ 16 + l.
Proof.
  intros Hl. rewrite Z.shiftl_mul_pow2 by lia.
  assert (Hland : Z.land (h * 2 ^ 16) l = 0).
  { apply Z.bits_inj'. intros n Hn. rewrite Z.land_spec, Z.bits_0.
    destruct (Z.lt_ge_cases n 16) as [Hlt|Hge].
    - rewrite Z.mul_pow2_bits_low by lia. reflexivity.
    - replace (Z.testbit l n) with false; [apply andb_false_r|].
      symmetry. destruct (Z.eq_dec l 0) as [->|Hnz]; [apply Z.bits_0|].
      apply Z.bits_above_log2; [lia|].
      apply Z.log2_lt_pow2; [lia|].
      apply Z.lt_le_trans with (2 ^ 16); [lia|].
      apply Z.pow_le_mono_r; lia. }
  rewrite <- Z.lxor_lor by exact Hland.
  symmetry. apply Z.add_nocarry_lxor. exact Hland.
Qed.

Lemma land_bit31 (u : Z) :
  Z.eqb (Z.land u 0x80000000) 0 = negb (Z.testbit u 31).
Proof.
  change 0x80000000 with (2 ^ 31).
  destruct (Z.testbit u 31) eqn:Hb; cbn [negb].
  - apply Z.eqb_neq. intros H.
    assert (Hbit : Z.testbit (Z.land u (2 ^ 31)) 31 = true).
    { rewrite Z.land_spec, Hb, Z.pow2_bits_true by lia. reflexivity. }
    rewrite H, Z.bits_0 in Hbit. discriminate.
  - apply Z.eqb_eq. apply Z.bits_inj'. intros n Hn.
    rewrite Z.land_spec, Z.bits_0, Z.pow2_bits_eqb by lia.
    destruct (Z.eqb_spec 31 n) as [<-|_]; [now rewrite Hb | apply andb_false_r].
Qed.

Lemma negate32 (u : Z) :
  0 <= u < 2 ^ 32 -> - (Z.land (Z.lnot u) 0xFFFFFFFF + 1) = u - 2 ^ 32.
Proof.
  intros Hu. change 0xFFFFFFFF with (Z.ones 32).
  rewrite Z.land_ones by lia.
  unfold Z.lnot. rewrite <- Z.sub_1_r.
  replace (- u - 1) with ((2 ^ 32 - 1 - u) + (-1) * 2 ^ 32) by lia.
  rewrite Z_mod_plus_full, Z.mod_small by lia. lia.
Qed.

Section Word32.
Context {Dev : Type} {host : Host Dev}.

Import modbus_client.

Lemma reg_value_32bit cli r endianness t a w0 w1 d d' :
  r_type r = Some t -> t = "uint32" \/ t = "int32" ->
  r_address r = Some a ->
  read_regs cli a 2 (get (r_function r) 3) d = (Ok [w0; w1], d') ->
  0 <= w0 <= 0xFFFF -> 0 <= w1 <= 0xFFFF ->
  reg_value cli r endianness d =
  (Ok (VFloat (inject_Z (value32 t endianness w0 w1) * get (r_scale r) 1%Q)), d').
Proof.
  intros Ht Hty Ha Hread H0 H1.
  assert (Hu : 0 <= unsigned32 endianness w0 w1 < 2 ^ 32).
  { unfold unsigned32. destruct (String.eqb endianness "big"); lia. }
  assert (Hasm : (if String.eqb endianness "big"
                  then assemble32 [w0; w1] 0 1 else assemble32 [w0; w1] 1 0)
                 = Ok (unsigned32 endianness w0 w1)).
  { unfold unsigned32, assemble32, index. cbn [nth_error].
    destruct (String.eqb endianness "big"); now rewrite lor_shiftl_16. }
  unfold reg_value, bind, lift, getitem. rewrite Ht, Ha.
  destruct Hty as [-> | ->]; cbn [str_in existsb String.eqb Ascii.eqb Bool.eqb orb andb];
    rewrite Hread, Hasm; unfold ret, value32;
    cbn [String.eqb Ascii.eqb Bool.eqb andb]; [reflexivity|].
  rewrite land_bit31, negb_involutive.
  destruct (Z.testbit (unsigned32 endianness w0 w1) 31); [|reflexivity].
  now rewrite negate32.
Qed.
End Word32.

(** C7. For a uint32 or int32 descriptor and two words [w0, w1] of 16 bits,
    the decoded value is the scale times w0*2^16 + w1 under 'big' endianness
    and w1*2^16 + w0 under the other setting, less 2^32 for an int32 whose
    bit 31 is set.  With scale 1.0: [0x0001, 0x0000] is 65536 big-endian and 1
    little-endian, and [0xFFFF, 0xFFFF] big-endian is -1. *)
Theorem decode_32bit_words :
  (forall Dev (host : Host Dev) cli r endianness t a w0 w1 d d',
      r_type r = Some t -> t = "uint32" \/ t = "int32" ->
      r_address r = Some a ->
      modbus_client.read_regs cli a 2 (get (r_function r) 3) d = (Ok [w0; w1], d') ->
      0 <= w0 <= 0xFFFF -> 0 <= w1 <= 0xFFFF ->
      modbus_client.reg_value cli r endianness d =
      (Ok (VFloat (inject_Z (value32 t endianness w0 w1) * get (r_scale r) 1%Q)), d') /\
      unsigned32 "big" w0 w1 = w0 * 2 ^ 16 + w1 /\
      unsigned32 "little" w0 w1 = w1 * 2 ^ 16 + w0 /\
      value32 "uint32" endianness w0 w1 = unsigned32 endianness w0 w1 /\
      value32 "int32" endianness w0 w1 =
        (if Z.testbit (unsigned32 endianness w0 w1) 31
         then unsigned32 endianness w0 w1 - 2 ^ 32
         else unsigned32 endianness w0 w1))
  /\
  fst (modbus_client.read_all (Some bench.com1)
         [bench.numeric "n" "int32" 30 1] "big"
         (bench.device [(30, 0x0001); (31, 0x0000)] []))
  = Ok [("n", VFloat 65536)]
  /\
  fst (modbus_client.read_all (Some bench.com1)
         [bench.numeric "n" "int32" 30 1] "little"
         (bench.device [(30, 0x0001); (31, 0x0000)] []))
  = Ok [("n", VFloat 1)]
  /\
  fst (modbus_client.read_all (Some bench.com1)
         [bench.numeric "n" "int32" 30 1] "big"
         (bench.device [(30, 0xFFFF); (31, 0xFFFF)] []))
  = Ok [("n", VFloat (-1))].
Proof.
  split; [|repeat split; reflexivity].
  intros Dev host cli r endianness t a w0 w1 d d' Ht Hty Ha Hread H0 H1.
  split; [eapply reg_value_32bit; eassumption|].
  repeat split; reflexivity.
Qed.

Lemma decode_32bit_words_witness :
  modbus_client.reg_value (Some bench.com1) (bench.numeric "n" "int32" 30 (1 # 10))
    "big" (bench.device [(30, 0xFFFF); (31, 0xFFFE)] [])
  = (Ok (VFloat (inject_Z (-2) * (1 # 10))),
     bench.device [(30, 0xFFFF); (31, 0xFFFE)] []).
Proof.
  apply (proj1 (proj1 decode_32bit_words bench.Bench bench.bench_host
                  (Some bench.com1) (bench.numeric "n" "int32" 30 (1 # 10))
                  "big" "int32" 30 0xFFFF 0xFFFE
                  (bench.device [(30, 0xFFFF); (31, 0xFFFE)] [])
                  (bench.device [(30, 0xFFFF); (31, 0xFFFE)] [])
                  eq_refl (or_intror eq_refl) eq_refl eq_refl
                  ltac:(lia) ltac:(lia))).
Defined.

(** ** Discovery *)

Section DiscoveryProps.
Context {Dev : Type} {host : Host Dev}.

Import modbus_client autodetect.

Lemma for_return_ext {A R} (xs : list A) (f g : A -> IO Dev (option R)) :
  (forall x d, f x d = g x d) ->
  forall d, for_return xs f d = for_return xs g d.
Proof.
  intros H. induction xs as [|x xs IH]; intros d; simpl; auto.
  unfold bind. rewrite H. destruct (g x d) as [[[v|]|e] d1]; auto.
Qed.

Lemma for_return_app {A R} (l1 l2 : list A) (f : A -> IO Dev (option R)) d :
  for_return (l1 ++ l2) f d =
  match for_return l1 f d with
  | (Ok None, d1) => for_return l2 f d1
  | other => other
  end.
Proof.
  revert d. induction l1 as [|x l1 IH]; intros d; simpl; auto.
  unfold bind. destruct (f x d) as [[[v|]|e] d1]; auto.
Qed.

Lemma for_return_flat_map {A B R} (xs : list A) (g : A -> list B)
  (f : B -> IO Dev (option R)) d :
  for_return (flat_map g xs) f d =
  for_return xs (fun x => for_return (g x) f) d.
Proof.
  revert d. induction xs as [|x xs IH]; intros d; simpl; auto.
  rewrite for_return_app. unfold bind.
  destruct (for_return (g x) f d) as [[[v|]|e] d1]; auto.
Qed.

Lemma for_return_map {A B R} (xs : list A) (g : A -> B)
  (f : B -> IO Dev (option R)) d :
  for_return (map g xs) f d = for_return xs (fun x => f (g x)) d.
Proof.
  revert d. induction xs as [|x xs IH]; intros d; simpl; auto.
  unfold bind. destruct (f (g x) d) as [[[v|]|e] d1]; auto.
Qed.

(** The three loops visit the candidates in the order of [candidates]. *)
Lemma scan_linear ports slave_id endianness probe_reg d :
  scan ports slave_id endianness probe_reg d =
  for_return (candidates ports) (offer slave_id endianness probe_reg) d.
Proof.
  unfold scan, candidates. rewrite for_return_flat_map.
  apply for_return_ext. intros port d1.
  rewrite for_return_flat_map.
  apply for_return_ext. intros par d2.
  rewrite for_return_map. reflexivity.
Qed.

Lemma startswith_marker (x : exn) : startswith ("ERR:" ++ x) "ERR:" = true.
Proof. unfold startswith. simpl. now destruct x. Qed.

(** A probe always answers, with yes or no. *)
Lemma _probe_once_total port baud parity slave_id endianness probe_reg d :
  exists b d',
    _probe_once port baud parity slave_id endianness probe_reg d = (Ok b, d').
Proof.
  unfold _probe_once, try_except.
  match goal with |- context [match ?m d with _ => _ end] =>
    destruct (m d) as [[b|e] d1] end.
  - now exists b, d1.
  - now exists false, d1.
Qed.

Lemma probe_total slave_id endianness probe_reg c d :
  exists b d', probe slave_id endianness probe_reg c d = (Ok b, d').
Proof. destruct c as [[port baud] par]. apply _probe_once_total. Qed.

Section Linear.
Variables (slave_id : Z) (endianness : string) (probe_reg : reg).

Lemma linear_scan_total cs d :
  exists res d',
    autodetect.for_return cs (offer slave_id endianness probe_reg) d = (Ok res, d').
Proof.
  revert d. induction cs as [|c cs IH]; intros d; simpl.
  - now exists None, d.
  - simpl. unfold bind, offer, bind.
    destruct (probe_total slave_id endianness probe_reg c d) as (b & d1 & Hp).
    rewrite Hp. destruct b; simpl.
    + now exists (Some c), d1.
    + apply IH.
Qed.

Lemma linear_scan_none cs d d' :
  autodetect.for_return cs (offer slave_id endianness probe_reg) d = (Ok None, d') <->
  all_rejected slave_id endianness probe_reg cs d d'.
Proof.
  revert d. induction cs as [|c cs IH]; intros d.
  - simpl. unfold ret. split.
    + intros [= <-]. constructor.
    + intros H. inversion H; subst. reflexivity.
  - simpl. unfold bind, offer, bind.
    destruct (probe_total slave_id endianness probe_reg c d) as (b & d1 & Hp).
    rewrite Hp. destruct b; simpl.
    + split; [discriminate|].
      intros H. inversion H as [|? ? ? ? ? Hp' _]; subst.
      rewrite Hp in Hp'. discriminate.
    + split.
      * intros H. econstructor; [exact Hp|]. now apply IH.
      * intros H. inversion H as [|? ? ? ? ? Hp' Hrest]; subst.
        rewrite Hp in Hp'. injection Hp' as <-. now apply IH.
Qed.

Lemma linear_scan_some cs d c d' :
  for_return cs (offer slave_id endianness probe_reg) d = (Ok (Some c), d') <->
  exists pre post d1,
    cs = pre ++ c :: post /\ all_rejected slave_id endianness probe_reg pre d d1 /\
    probe slave_id endianness probe_reg c d1 = (Ok true, d').
Proof.
  revert d. induction cs as [|c0 cs IH]; intros d.
  - simpl. unfold ret. split; [discriminate|].
    intros (pre & post & d1 & E & _). destruct pre; discriminate.
  - simpl. unfold bind, offer, bind.
    destruct (probe_total slave_id endianness probe_reg c0 d) as (b & d1 & Hp).
    rewrite Hp. destruct b; simpl; unfold ret.
    + split.
      * intros [= <- <-]. exists [], cs, d. repeat split; auto. constructor.
      * intros (pre & post & d2 & E & Hrej & Hacc).
        destruct pre as [|c1 pre]; simpl in E; injection E as <- ->.
        -- inversion Hrej; subst. rewrite Hp in Hacc. now injection Hacc as <-.
        -- inversion Hrej as [|? ? ? ? ? Hp' _]; subst.
           rewrite Hp in Hp'. discriminate.
    + split.
      * intros H. apply IH in H. destruct H as (pre & post & d2 & -> & Hrej & Hacc).
        exists (c0 :: pre), post, d2. repeat split; auto.
        econstructor; eauto.
      * intros (pre & post & d2 & E & Hrej & Hacc).
        destruct pre as [|c1 pre]; simpl in E; injection E as <- ->.
        -- inversion Hrej; subst. rewrite Hp in Hacc. discriminate.
        -- inversion Hrej as [|? ? ? ? ? Hp' Hrest]; subst.
           rewrite Hp in Hp'. injection Hp' as <-.
           apply IH. exists pre, post, d2. auto.
Qed.
End Linear.


(** What makes a probe say yes: the client could be opened and the entry of
    the probe register in the pass is not an 'ERR:' marker. *)
Lemma _probe_once_accepts port baud parity slave_id endianness probe_reg d d' :
  _probe_once port baud parity slave_id endianness probe_reg d = (Ok true, d') <->
  exists cli d1 name data,
    RTUClient_init port baud slave_id parity d = (Ok cli, d1) /\
    r_name probe_reg = Some name /\
    read_all (Some cli) [probe_reg] endianness (time_sleep (5 # 100) d1)
      = (Ok data, d') /\
    is_error_marker (dict_get name data) = false.
Proof.
  unfold _probe_once, try_except, bind, lift, ret, sleep, is_error_marker.
  destruct (RTUClient_init port baud slave_id parity d) as [[cli|e] d1] eqn:Hinit.
  - destruct (read_all (Some cli) [probe_reg] endianness (time_sleep (5 # 100) d1))
      as [[data|e] d2] eqn:Hrun.
    + destruct (r_name probe_reg) as [name|] eqn:Hname; simpl.
      * split.
        -- intros [= Hb <-]. exists cli, d1, name, data.
           split; [reflexivity|]. split; [reflexivity|]. split; [exact Hrun|].
           now apply negb_true_iff.
        -- intros (cli' & d1' & name' & data' & [= <- <-] & [= <-] & Hr & Hm).
           rewrite Hrun in Hr. injection Hr as <- <-. now rewrite Hm.
      * split; [discriminate|].
        intros (cli' & d1' & name' & data' & _ & Hn & _). discriminate.
    + split; [discriminate|].
      intros (cli' & d1' & name' & data' & [= <- <-] & _ & Hr & _).
      rewrite Hrun in Hr. discriminate.
  - split; [discriminate|].
    intros (cli' & d1' & name' & data' & Hi & _). discriminate.
Qed.

Section DeadLine.
(** Every transaction on the line fails. *)
Hypothesis line_dead :
  forall c a n f d, exists x d', read_registers c a n f d = (Raise x, d').

Variables (slave_id : Z) (endianness : string) (probe_reg : reg).

(** The probe register is of a type that is read from the line. *)
Hypothesis probe_reads :
  forall t, r_type probe_reg = Some t -> reads_line t = true.

Lemma reg_value_dead cli d :
  exists x d', reg_value (Some cli) probe_reg endianness d = (Raise x, d').
Proof.
  pose proof probe_reads as Hreads.
  destruct (r_type probe_reg) as [t|] eqn:Ht.
  - specialize (Hreads t eq_refl).
    destruct (r_address probe_reg) as [a|] eqn:Ha.
    + destruct (line_dead cli a (words_asked probe_reg t)
                  (get (r_function probe_reg) 3) d) as (x & d' & Hx).
      exists x, d'.
      apply (reg_value_read_raises (Some cli) probe_reg endianness d Ht
               Hreads Ha Hx).
    + exists "KeyError", d. unfold reg_value, bind, lift, getitem.
      now rewrite Ht, Ha.
  - exists "KeyError", d. unfold reg_value, bind, lift, getitem.
    now rewrite Ht.
Qed.

Lemma probe_dead c d :
  exists d', probe slave_id endianness probe_reg c d = (Ok false, d').
Proof.
  destruct (probe_total slave_id endianness probe_reg c d) as (b & d' & Hp).
  exists d'. destruct b; [exfalso | exact Hp].
  destruct c as [[port baud] par]. unfold probe in Hp.
  apply _probe_once_accepts in Hp.
  destruct Hp as (cli & d1 & name & data & _ & Hn & Hrun & Hm).
  unfold read_all in Hrun. cbn [read_all_loop] in Hrun. unfold bind in Hrun.
  rewrite (read_all_step_named (Some cli) endianness [] probe_reg
             (time_sleep (5 # 100) d1) Hn) in Hrun.
  destruct (reg_value_dead cli (time_sleep (5 # 100) d1)) as (x & d2 & Hx).
  rewrite Hx in Hrun. unfold ret in Hrun. injection Hrun as Hdata _.
  subst data.
  cbn [dict_get dict_set] in Hm. rewrite String.eqb_refl in Hm.
  unfold is_error_marker in Hm.
  change (startswith ("ERR:" ++ x) "ERR:" = false) in Hm.
  rewrite startswith_marker in Hm. discriminate Hm.
Qed.

Lemma all_rejected_dead cs d :
  exists d', all_rejected slave_id endianness probe_reg cs d d'.
Proof.
  revert d. induction cs as [|c cs IH]; intros d.
  - exists d. constructor.
  - destruct (probe_dead c d) as (d1 & Hp).
    destruct (IH d1) as (d2 & Hr).
    exists d2. econstructor; eauto.
Qed.
End DeadLine.

(** [autodetect] is the scan, once the configuration and the ports are read. *)
Lemma autodetect_scans cfg ports slave_id endianness probe_reg d d0 d1 :
  load_config d = (Ok cfg, d0) ->
  c_slave_id cfg = Some slave_id ->
  c_endianness cfg = Some endianness ->
  (c_probe cfg = Some probe_reg /\ reg_truthy probe_reg = true) \/
  ((c_probe cfg = None \/ exists p, c_probe cfg = Some p /\ reg_truthy p = false) /\
   exists rest, c_registers cfg = Some (probe_reg :: rest)) ->
  comports d0 = (Ok ports, d1) ->
  autodetect d = scan ports slave_id endianness probe_reg d1.
Proof.
  intros Hload Hs He Hp Hports.
  unfold autodetect, bind, lift, getitem. rewrite Hload, Hs, He.
  destruct Hp as [[Hp Ht] | [[Hp | (p & Hp & Ht)] (rest & Hr)]];
    rewrite Hp; try rewrite Ht; try rewrite Hr; simpl; now rewrite Hports.
Qed.

End DiscoveryProps.


(** X28. The scan visits the candidates port by port, for the one parity 'N',
    through the bauds 115200, 57600, 38400, 19200, 9600.  It never raises: it
    returns the first candidate whose probe says yes, all candidates before it
    having been probed and rejected, and it returns None exactly when every
    candidate was probed and rejected, as happens when there is no port, and
    when every transaction on the line fails and the probe register is of a
    type that is read from the line.  A probe says yes exactly when the
    client could be built and the entry of the probe register in the pass is
    not an 'ERR:' marker.  [autodetect] is this scan on the ports the host
    reports, with the slave id, endianness and probe register of the
    configuration. *)
Theorem autodetect_returns_first_accepted :
  forall Dev (host : Host Dev) ports slave_id endianness probe_reg d,
    candidates ports =
      flat_map (fun port => [(port, 115200, "N"); (port, 57600, "N");
                             (port, 38400, "N"); (port, 19200, "N");
                             (port, 9600, "N")]) ports
    /\
    (exists res d',
        autodetect.scan ports slave_id endianness probe_reg d = (Ok res, d'))
    /\
    (forall c d',
        autodetect.scan ports slave_id endianness probe_reg d = (Ok (Some c), d') <->
        exists pre post d1,
          candidates ports = pre ++ c :: post /\
          all_rejected slave_id endianness probe_reg pre d d1 /\
          probe slave_id endianness probe_reg c d1 = (Ok true, d'))
    /\
    (forall d',
        autodetect.scan ports slave_id endianness probe_reg d = (Ok None, d') <->
        all_rejected slave_id endianness probe_reg (candidates ports) d d')
    /\
    (ports = [] ->
     autodetect.scan ports slave_id endianness probe_reg d = (Ok None, d))
    /\
    ((forall c a n f d0, exists x d', read_registers c a n f d0 = (Raise x, d')) ->
     (forall t, r_type probe_reg = Some t -> reads_line t = true) ->
     exists d', autodetect.scan ports slave_id endianness probe_reg d = (Ok None, d'))
    /\
    (forall port baud parity d',
        autodetect._probe_once port baud parity slave_id endianness probe_reg d
          = (Ok true, d') <->
        exists cli d1 name data,
          modbus_client.RTUClient_init port baud slave_id parity d = (Ok cli, d1) /\
          r_name probe_reg = Some name /\
          modbus_client.read_all (Some cli) [probe_reg] endianness
            (time_sleep (5 # 100) d1) = (Ok data, d') /\
          is_error_marker (dict_get name data) = false)
    /\
    (forall cfg d0 d1,
        load_config d = (Ok cfg, d0) ->
        c_slave_id cfg = Some slave_id ->
        c_endianness cfg = Some endianness ->
        (c_probe cfg = Some probe_reg /\ reg_truthy probe_reg = true) \/
        ((c_probe cfg = None \/
          exists p, c_probe cfg = Some p /\ reg_truthy p = false) /\
         exists rest, c_registers cfg = Some (probe_reg :: rest)) ->
        comports d0 = (Ok ports, d1) ->
        autodetect.autodetect d =
        autodetect.scan ports slave_id endianness probe_reg d1).
Proof.
  intros Dev host ports slave_id endianness probe_reg d.
  split.
  { unfold candidates. apply flat_map_ext. intros port. reflexivity. }
  split.
  { rewrite scan_linear. apply linear_scan_total. }
  split.
  { intros c d'. rewrite scan_linear. apply linear_scan_some. }
  split.
  { intros d'. rewrite scan_linear. apply linear_scan_none. }
  split.
  { intros ->. reflexivity. }
  split.
  { intros Hdead Hreads.
    destruct (all_rejected_dead Hdead slave_id endianness probe_reg Hreads
                (candidates ports) d) as (d' & Hrej).
    exists d'. rewrite scan_linear. now apply linear_scan_none. }
  split.
  { intros port baud parity d'. apply _probe_once_accepts. }
  intros cfg d0 d1. apply autodetect_scans.
Qed.

(** Discovery on the bench: two ports, the instrument on the second one at
    9600 baud; every candidate is rejected. *)
Lemma autodetect_returns_first_accepted_witness :
  fst (autodetect.autodetect
         (bench.installed (bench.device [(10, 5)] [])
            (mkConfig (Some 1) (Some "big")
               (Some (bench.numeric "p" "uint16" 10 1))
               (Some [bench.numeric "p" "uint16" 10 1]))
            ["COM0"; "COM1"]))
  = Ok None.
Proof.
  rewrite (proj2 (proj2 (proj2 (proj2 (proj2 (proj2 (proj2
             (@autodetect_returns_first_accepted bench.Bench bench.bench_host
                ["COM0"; "COM1"] 1 "big" (bench.numeric "p" "uint16" 10 1)
                (bench.installed (bench.device [(10, 5)] [])
                   (mkConfig (Some 1) (Some "big")
                      (Some (bench.numeric "p" "uint16" 10 1))
                      (Some [bench.numeric "p" "uint16" 10 1]))
                   ["COM0"; "COM1"])))))))))
    with (cfg := mkConfig (Some 1) (Some "big")
                   (Some (bench.numeric "p" "uint16" 10 1))
                   (Some [bench.numeric "p" "uint16" 10 1]))
         (d0 := bench.installed (bench.device [(10, 5)] [])
                   (mkConfig (Some 1) (Some "big")
                      (Some (bench.numeric "p" "uint16" 10 1))
                      (Some [bench.numeric "p" "uint16" 10 1]))
                   ["COM0"; "COM1"])
         (d1 := bench.installed (bench.device [(10, 5)] [])
                   (mkConfig (Some 1) (Some "big")
                      (Some (bench.numeric "p" "uint16" 10 1))
                      (Some [bench.numeric "p" "uint16" 10 1]))
                   ["COM0"; "COM1"]).
  - vm_compute. reflexivity.
  - reflexivity.
  - reflexivity.
  - reflexivity.
  - left. split; reflexivity.
  - reflexivity.
Defined.

Section NoParityConstant.
Context {Dev : Type} {host : Host Dev}.

Import modbus_client autodetect.

(** No client can be built with the parity 'N'. *)
Hypothesis no_constant :
  forall c d, parity c = "N" -> exists e d', instrument_new c d = (Raise e, d').

Lemma probe_without_constant slave_id endianness probe_reg port baud d :
  exists d',
    _probe_once port baud "N" slave_id endianness probe_reg d = (Ok false, d').
Proof.
  unfold _probe_once, try_except, bind, RTUClient_init, bind.
  destruct (no_constant (mkRTUClient port baud slave_id "N" 1 (2 # 10)) d eq_refl)
    as (e & d' & H).
  rewrite H. exists d'. reflexivity.
Qed.

Lemma all_rejected_without_constant slave_id endianness probe_reg cs :
  Forall (fun c : string * Z * string => snd c = "N") cs ->
  forall d, exists d', all_rejected slave_id endianness probe_reg cs d d'.
Proof.
  induction 1 as [|[[port baud] par] cs Hc _ IH]; intros d.
  - exists d. constructor.
  - simpl in Hc. subst par.
    destruct (probe_without_constant slave_id endianness probe_reg port baud d)
      as (d1 & Hp).
    destruct (IH d1) as (d2 & Hr).
    exists d2. econstructor; [exact Hp | exact Hr].
Qed.

Lemma candidates_parity ports :
  Forall (fun c : string * Z * string => snd c = "N") (candidates ports).
Proof.
  induction ports as [|port ports IH]; [constructor|].
  unfold candidates. cbn [flat_map]. fold (candidates ports).
  apply Forall_app. split; [|exact IH].
  cbn. repeat constructor.
Qed.
End NoParityConstant.

(** X29. Discovery depends on the serial library having a constant for the
    parity 'N': on a host where no client can be built with that parity, the
    scan rejects every candidate and returns None, whatever the ports, the
    probe register and the instrument on the line. *)
Theorem autodetect_needs_parity_constant :
  forall Dev (host : Host Dev) ports slave_id endianness probe_reg d,
    (forall c d0,
        parity c = "N" -> exists e d', instrument_new c d0 = (Raise e, d')) ->
    exists d',
      autodetect.scan ports slave_id endianness probe_reg d = (Ok None, d') /\
      all_rejected slave_id endianness probe_reg (candidates ports) d d'.
Proof.
  intros Dev host ports slave_id endianness probe_reg d Hno.
  destruct (all_rejected_without_constant Hno slave_id endianness probe_reg
              (candidates_parity ports) d) as (d' & Hrej).
  exists d'. split; [|exact Hrej].
  rewrite scan_linear. now apply linear_scan_none.
Qed.

Lemma autodetect_needs_parity_constant_witness :
  exists d',
    autodetect.scan ["COM1"] 1 "big" (bench.numeric "p" "uint16" 10 1)
      (bench.device [(10, 5)] [])
    = (Ok None, d').
Proof.
  destruct (@autodetect_needs_parity_constant bench.Bench bench.bench_host
              ["COM1"] 1 "big" (bench.numeric "p" "uint16" 10 1)
              (bench.device [(10, 5)] [])) as (d' & Hscan & _).
  - intros c d0 Hpar. cbn. rewrite Hpar.
    destruct (existsb (String.eqb (port c)) (bench.ports d0));
      [destruct (baudrate c <? 0)|]; eexists; eexists; reflexivity.
  - exists d'. exact Hscan.
Defined.

(** ** The write path *)

Lemma round_half_even_nearest (q : Q) :
  (Qabs (inject_Z (round_half_even q) - q) <= 1 # 2)%Q.
Proof.
  pose proof (Qfloor_le q) as Hlo. pose proof (Qlt_floor q) as Hhi.
  rewrite inject_Z_plus in Hhi. change (inject_Z 1) with 1%Q in Hhi.
  apply Qabs_Qle_condition. unfold round_half_even.
  destruct (Qlt_le_dec (q - inject_Z (Qfloor q)) (1 # 2)) as [H1|H1].
  - split; lra.
  - destruct (Qlt_le_dec (1 # 2) (q - inject_Z (Qfloor q))) as [H2|H2].
    + rewrite inject_Z_plus. change (inject_Z 1) with 1%Q. split; lra.
    + destruct (Z.even (Qfloor q)).
      * split; lra.
      * rewrite inject_Z_plus. change (inject_Z 1) with 1%Q. split; lra.
Qed.

Lemma round_half_even_comp (x y : Q) :
  (x == y)%Q -> round_half_even x = round_half_even y.
Proof.
  intros E. unfold round_half_even. rewrite (Qfloor_comp x y E).
  destruct (Qlt_le_dec (x - inject_Z (Qfloor y)) (1 # 2)),
           (Qlt_le_dec (y - inject_Z (Qfloor y)) (1 # 2)); try lra; auto.
  destruct (Qlt_le_dec (1 # 2) (x - inject_Z (Qfloor y))),
           (Qlt_le_dec (1 # 2) (y - inject_Z (Qfloor y))); try lra; auto.
Qed.


Ltac clamp_case :=
  split; [reflexivity|];
  repeat split; try lra; try discriminate;
  let y := fresh "y" in
  let E := fresh "E" in
  intros y E; injection E as <-; intros;
  try lra; try reflexivity; try (exfalso; lra).

(** The two clamping steps of the write path leave a finite value between the
    bounds, whatever [float(text)] was. *)
Lemma clamp_between (lo hi : Q) (fv : pyfloat) :
  (lo <= hi)%Q ->
  exists c,
    py_min (Fin hi) (py_max (Fin lo) fv) = Fin c /\
    (lo <= c <= hi)%Q /\
    (forall x, fv = Fin x -> (lo <= x <= hi)%Q -> (c == x)%Q) /\
    (forall x, fv = Fin x -> (x < lo)%Q -> (c == lo)%Q) /\
    (forall x, fv = Fin x -> (hi < x)%Q -> (c == hi)%Q).
Proof.
  intros Hb. unfold py_min, py_max.
  destruct fv as [x| | |]; cbn [flt].
  - destruct (Qlt_le_dec lo x) as [H1|H1]; cbn [flt].
    + destruct (Qlt_le_dec x hi) as [H2|H2]; [exists x | exists hi]; clamp_case.
    + destruct (Qlt_le_dec lo hi) as [H2|H2]; [exists lo | exists hi]; clamp_case.
  - exists hi. clamp_case.
  - destruct (Qlt_le_dec lo hi) as [H2|H2]; [exists lo | exists hi]; clamp_case.
  - destruct (Qlt_le_dec lo hi) as [H2|H2]; [exists lo | exists hi]; clamp_case.
Qed.

Section WritePath.
Context {Dev : Type} {host : Host Dev}.

Import modbus_client app_gui.

(** The numeric branch of [_on_write], once the clamped value is known. *)
Lemma on_write_numeric regs cli name channel text reg t a fv c d :
  find_reg regs name = Ok reg ->
  r_type reg = Some t ->
  String.eqb t "bool16" = false ->
  (String.eqb t "enum16" = true -> r_map reg = None) ->
  r_address reg = Some a ->
  py_float text = Ok fv ->
  match r_max reg with
  | Some hi => py_min (Fin hi) (match r_min reg with
                                | Some lo => py_max (Fin lo) fv
                                | None => fv
                                end)
  | None => match r_min reg with
            | Some lo => py_max (Fin lo) fv
            | None => fv
            end
  end = Fin c ->
  _on_write regs cli name channel text d =
  write_u16 cli a
    (round_half_even (if negb (Qeq_bool (get (r_scale reg) 1%Q) 0)
                      then c / get (r_scale reg) 1%Q else c)%Q)
    6 d.
Proof.
  intros Hfind Ht Hbool Henum Ha Hfloat Hclamp.
  unfold _on_write, bind, lift. rewrite Hfind, Ht.
  assert (Hm : (if String.eqb t "enum16" then r_map reg else None) = None).
  { destruct (String.eqb t "enum16"); auto. }
  rewrite Hm. unfold getitem. rewrite Hbool, Hfloat, Ha.
  unfold scale_to_raw.
  destruct (r_max reg) as [hi|]; rewrite Hclamp;
    destruct (negb (Qeq_bool (get (r_scale reg) 1%Q) 0)); reflexivity.
Qed.



Lemma read_all_single cli r endianness name v d d' :
  r_name r = Some name ->
  reg_value cli r endianness d = (Ok v, d') ->
  read_all cli [r] endianness d = (Ok [(name, v)], d').
Proof.
  intros Hn Hv. unfold read_all. cbn [read_all_loop]. unfold bind.
  rewrite (read_all_step_named cli endianness [] r d Hn), Hv. reflexivity.
Qed.


End WritePath.

(** C9. On a register that takes the numeric branch of the write path and
    carries both bounds, the value parsed from the text is first brought
    between 'min' and 'max', in engineering units; the word written is that
    clamped value divided by the scale and rounded to the nearest integer
    (ties to even), and the clamped value itself, rounded, when the scale is
    zero.  On the bench, with bounds (0, 100) the text "150" is written as
    200 at scale 0.5, that is 100 / 0.5, and as 100 at scale 0. *)
Theorem on_write_clamps_before_scaling :
  (forall Dev (host : Host Dev) regs cli name channel text reg t a lo hi fv d,
      modbus_client.find_reg regs name = Ok reg ->
      r_type reg = Some t -> t <> "bool16" ->
      (t = "enum16" -> r_map reg = None) ->
      r_address reg = Some a ->
      r_min reg = Some lo -> r_max reg = Some hi -> (lo <= hi)%Q ->
      py_float text = Ok fv ->
      exists c,
        py_min (Fin hi) (py_max (Fin lo) fv) = Fin c /\
        (lo <= c <= hi)%Q /\
        (forall x, fv = Fin x -> (lo <= x <= hi)%Q -> (c == x)%Q) /\
        (forall x, fv = Fin x -> (x < lo)%Q -> (c == lo)%Q) /\
        (forall x, fv = Fin x -> (hi < x)%Q -> (c == hi)%Q) /\
        let scale := get (r_scale reg) 1%Q in
        let scaled := (if negb (Qeq_bool scale 0) then c / scale else c)%Q in
        app_gui._on_write regs cli name channel text d =
          modbus_client.write_u16 cli a (round_half_even scaled) 6 d /\
        (Qabs (inject_Z (round_half_even scaled) - scaled) <= 1 # 2)%Q)
  /\
  bench.mem (snd (app_gui._on_write [bench.bounded "w" "uint16" 7 (1 # 2) 0 100]
                    (Some bench.com1) "w" 1 "150" (bench.device [] []))) 7 = 200
  /\
  bench.mem (snd (app_gui._on_write [bench.bounded "w" "uint16" 7 0 0 100]
                    (Some bench.com1) "w" 1 "150" (bench.device [] []))) 7 = 100.
Proof.
  split; [|split; reflexivity].
  intros Dev host regs cli name channel text reg t a lo hi fv d
         Hfind Ht Hbool Henum Ha Hlo Hhi Hb Hf.
  destruct (clamp_between fv Hb) as (c & Hc & Hin & Hmid & Hbelow & Habove).
  exists c. repeat (split; [assumption|]).
  cbv zeta. split; [|apply round_half_even_nearest].
  apply on_write_numeric with (reg := reg) (t := t) (fv := fv); auto.
  - destruct (String.eqb_spec t "bool16"); congruence.
  - intros E. apply Henum. now apply String.eqb_eq.
  - now rewrite Hlo, Hhi.
Qed.

Lemma on_write_clamps_before_scaling_witness :
  app_gui._on_write [bench.bounded "w" "uint16" 7 (1 # 2) 0 100]
    (Some bench.com1) "w" 1 "150" (bench.device [] [])
  = modbus_client.write_u16 (Some bench.com1) 7 200 6 (bench.device [] []).
Proof.
  destruct (proj1 on_write_clamps_before_scaling bench.Bench bench.bench_host
              [bench.bounded "w" "uint16" 7 (1 # 2) 0 100]
              (Some bench.com1) "w" 1 "150"
              (bench.bounded "w" "uint16" 7 (1 # 2) 0 100) "uint16" 7
              0%Q 100%Q (Fin 150) (bench.device [] []))
    as (c & Hc & _ & _ & _ & _ & Hw & _).
  - reflexivity.
  - reflexivity.
  - discriminate.
  - discriminate.
  - reflexivity.
  - reflexivity.
  - reflexivity.
  - discriminate.
  - reflexivity.
  - vm_compute in Hc. injection Hc as <-. exact Hw.
Defined.




(** ** The worker loop *)

Section Worker.
Context {Dev : Type} {host : Host Dev}.

Import modbus_client app_gui.

(** A turn of the loop made while connected publishes a data event and
    stays connected, whatever the line did during the pass: the pass has
    turned every failure into a marker, so the handler of the loop is not
    reached. *)
Lemma worker_turn_connected (self : App) d :
  connected self = true ->
  Forall named (regs self) ->
  exists values d',
    read_all (cli self) (regs self) (endianness self) d = (Ok values, d') /\
    worker_turn self d =
    (Ok (mkApp (regs self) (endianness self) (slave self) (cli self) true
           (q self ++ [Data (time_time d) values])),
     time_sleep SAMPLE_PERIOD_SEC d').
Proof.
  intros Hc Hn.
  destruct (read_all_loop_total (cli self) (endianness self) [] d Hn)
    as (values & d' & Hrun).
  exists values, d'. split; [exact Hrun|].
  unfold worker_turn, try_except, bind, sleep, now, ret. rewrite Hc. cbn [negb].
  unfold read_all. now rewrite Hrun.
Qed.

(** An exception that leaves the body of the turn, here from discovery, takes
    the loop to the handler: the client is dropped, the loop is disconnected
    and a status event names the exception. *)
Lemma worker_turn_discovery_raises (self : App) x d d' :
  connected self = false ->
  autodetect.autodetect d = (Raise x, d') ->
  worker_turn self d =
  (Ok (mkApp (regs self) (endianness self) (slave self) None false
         (q self ++ [Status ("Disconnected: " ++ x ++ ". Waiting for device…")])),
   time_sleep SCAN_INTERVAL_SEC d').
Proof.
  intros Hc Hd.
  unfold worker_turn, try_except, bind, sleep, ret. rewrite Hc. cbn [negb].
  now rewrite Hd.
Qed.
End Worker.

(** C5. The loop does not leave CONNECTED when the transport fails during a
    pass.  On the bench, with the instrument unplugged so that every
    transaction raises NoResponseError, a turn of the connected loop keeps the
    client, stays connected and queues a data event whose entry is the marker;
    no status event is queued.  The claim has the loop drop the client, go to
    DISCONNECTED and queue a status event. *)
Theorem worker_stays_connected_on_transport_failure :
  fst (app_gui.worker_turn
         (app_gui.mkApp [bench.numeric "rate" "uint16" 10 1] "big" 1
            (Some bench.com1) true [])
         bench.unplugged)
  = Ok (app_gui.mkApp [bench.numeric "rate" "uint16" 10 1] "big" 1
          (Some bench.com1) true
          [app_gui.Data 0 [("rate", VStr "ERR:NoResponseError")]]).
Proof. reflexivity. Qed.

(* ================================================================== *)
(** * More properties of the program *)

(** ** Bytes of a word *)

Lemma hi_byte_pack (a b : Z) :
  0 <= a < 256 -> 0 <= b < 256 -> modbus_client.hi_byte (a * 256 + b) = a.
Proof.
  intros Ha Hb. unfold modbus_client.hi_byte.
  change 255 with (Z.ones 8). rewrite Z.land_ones by lia.
  rewrite Z.shiftr_div_pow2 by lia. change (2 ^ 8) with 256.
  rewrite Z.div_add_l by lia. rewrite (Z.div_small b 256) by lia.
  rewrite Z.add_0_r. apply Z.mod_small. lia.
Qed.

Lemma lo_byte_pack (a b : Z) :
  0 <= b < 256 -> modbus_client.lo_byte (a * 256 + b) = b.
Proof.
  intros Hb. unfold modbus_client.lo_byte.
  change 255 with (Z.ones 8). rewrite Z.land_ones by lia.
  change (2 ^ 8) with 256.
  rewrite Z.add_comm, Z_mod_plus_full. apply Z.mod_small. lia.
Qed.

Lemma byte_range (w : Z) :
  0 <= modbus_client.hi_byte w < 256 /\ 0 <= modbus_client.lo_byte w < 256.
Proof.
  unfold modbus_client.hi_byte, modbus_client.lo_byte.
  change 255 with (Z.ones 8). rewrite !Z.land_ones by lia.
  change (2 ^ 8) with 256. split; apply Z.mod_pos_bound; lia.
Qed.

(** X1. Two registers holding the octets a.b and c.d, high byte first, are
    rendered as the dotted address "a.b.c.d". *)
Theorem words_to_ip_octets :
  forall a b c d,
    0 <= a < 256 -> 0 <= b < 256 -> 0 <= c < 256 -> 0 <= d < 256 ->
    modbus_client.words_to_ip [a * 256 + b; c * 256 + d] =
    join "." [py_str_of_int a; py_str_of_int b; py_str_of_int c; py_str_of_int d].
Proof.
  intros a b c d Ha Hb Hc Hd. unfold modbus_client.words_to_ip.
  cbn [flat_map app map].
  now rewrite !hi_byte_pack, !lo_byte_pack by assumption.
Qed.

Lemma words_to_ip_octets_witness :
  modbus_client.words_to_ip [192 * 256 + 168; 1 * 256 + 20] = "192.168.1.20".
Proof.
  apply (@words_to_ip_octets 192 168 1 20); lia.
Defined.

(** X2. Whatever the words, also outside 16 bits, every octet of the rendered
    address is a byte: the text is the join of as many numbers between 0 and
    255 as there are bytes. *)
Theorem words_to_ip_bytes :
  forall words,
    exists octets,
      modbus_client.words_to_ip words = join "." (map py_str_of_int octets) /\
      List.length octets = (2 * List.length words)%nat /\
      Forall (fun o => 0 <= o < 256) octets.
Proof.
  intros words. unfold modbus_client.words_to_ip.
  exists (flat_map (fun w => [modbus_client.hi_byte w; modbus_client.lo_byte w]) words).
  split; [reflexivity|]. split.
  - induction words as [|w ws IH]; simpl; [reflexivity|]. rewrite IH. lia.
  - induction words as [|w ws IH]; simpl; [constructor|].
    destruct (byte_range w) as [Hh Hl]. repeat constructor; auto; lia.
Qed.

(** ** Text registers *)

Section Strip.
Import modbus_client.

Lemma dropwhile_none {A} (p : A -> bool) (l : list A) :
  Forall (fun c => p c = false) l -> dropwhile p l = l.
Proof. intros H. destruct H as [|c l Hc _]; simpl; [reflexivity|]. now rewrite Hc. Qed.

Lemma dropwhile_all {A} (p : A -> bool) (l rest : list A) :
  Forall (fun c => p c = true) l -> dropwhile p (l ++ rest) = dropwhile p rest.
Proof. intros H. induction H as [|c l Hc _ IH]; simpl; [reflexivity|]. now rewrite Hc. Qed.

Lemma dropwhile_head {A} (p : A -> bool) (l : list A) c rest :
  dropwhile p l = c :: rest -> p c = false.
Proof.
  induction l as [|a l IH]; simpl; [discriminate|].
  destruct (p a) eqn:E; [exact IH|]. intros [= <- _]. exact E.
Qed.

Lemma dropwhile_snoc {A} (p : A -> bool) (l : list A) c :
  p c = false -> dropwhile p (l ++ [c]) = dropwhile p l ++ [c].
Proof.
  intros Hc. induction l as [|a l IH]; simpl.
  - now rewrite Hc.
  - destruct (p a); auto.
Qed.

Lemma rstrip_padding (p : ascii -> bool) (l pad : list ascii) :
  Forall (fun c => p c = false) l -> Forall (fun c => p c = true) pad ->
  rstrip p (l ++ pad) = l.
Proof.
  intros Hl Hpad. unfold rstrip. rewrite rev_app_distr.
  rewrite dropwhile_all by (apply Forall_rev; exact Hpad).
  rewrite dropwhile_none by (apply Forall_rev; exact Hl).
  apply rev_involutive.
Qed.

Lemma rstrip_cons (p : ascii -> bool) c (l : list ascii) :
  p c = false -> rstrip p (c :: l) = c :: rstrip p l.
Proof.
  intros Hc. unfold rstrip. simpl rev at 2.
  rewrite dropwhile_snoc by exact Hc. rewrite rev_app_distr. reflexivity.
Qed.

Lemma rstrip_last (p : ascii -> bool) (l : list ascii) c :
  rstrip p l <> [] -> p (last (rstrip p l) c) = false.
Proof.
  unfold rstrip. destruct (dropwhile p (rev l)) as [|a t] eqn:E.
  - intros H. now contradiction H.
  - intros _. simpl rev. rewrite last_last. exact (@dropwhile_head _ p (rev l) a t E).
Qed.

Lemma strip_edges (l : list ascii) c rest :
  strip l = c :: rest ->
  isspace c = false /\ isspace (last (c :: rest) c) = false.
Proof.
  unfold strip. destruct (dropwhile isspace l) as [|a t] eqn:E.
  - discriminate.
  - pose proof (@dropwhile_head _ isspace l a t E) as Ha.
    intros Hs. split.
    + rewrite (@rstrip_cons isspace a t Ha) in Hs. now injection Hs as <- _.
    + rewrite <- Hs. apply rstrip_last. rewrite Hs. discriminate.
Qed.
End Strip.

Lemma pack_ascii_bytes (chars : list ascii) :
  exists pad,
    flat_map (fun w => [modbus_client.hi_byte w; modbus_client.lo_byte w])
             (pack_ascii chars)
    = map (fun c => Z.of_N (N_of_ascii c)) (chars ++ pad) /\
    Forall (fun c => Ascii.eqb zero c = true) pad.
Proof.
  assert (Hcode : forall c, 0 <= Z.of_N (N_of_ascii c) < 256).
  { intros c. pose proof (N_ascii_bounded c). lia. }
  assert (G : forall n chars, (List.length chars <= n)%nat ->
              exists pad,
                flat_map (fun w => [modbus_client.hi_byte w; modbus_client.lo_byte w])
                         (pack_ascii chars)
                = map (fun c => Z.of_N (N_of_ascii c)) (chars ++ pad) /\
                Forall (fun c => Ascii.eqb zero c = true) pad).
  { induction n as [|n IH]; intros l Hlen.
    - destruct l; [|simpl in Hlen; lia]. exists []. split; [reflexivity|constructor].
    - destruct l as [|c1 [|c2 rest]].
      + exists []. split; [reflexivity|constructor].
      + exists [zero]. split; [|repeat constructor].
        cbn [pack_ascii flat_map app map].
        replace (Z.of_N (N_of_ascii c1) * 256) with (Z.of_N (N_of_ascii c1) * 256 + 0) by lia.
        rewrite hi_byte_pack, lo_byte_pack by (auto; lia). reflexivity.
      + destruct (IH rest) as (pad & E & Hpad); [simpl in Hlen; lia|].
        exists pad. split; [|exact Hpad].
        cbn [pack_ascii flat_map app map]. rewrite E.
        rewrite hi_byte_pack, lo_byte_pack by auto. reflexivity. }
  exact (G (List.length chars) chars (le_n _)).
Qed.

(** X3. A text of visible ASCII characters, stored two characters a register,
    high byte first and NUL padded, reads back as that text. *)
Theorem words_to_ascii_pack :
  forall chars,
    forallb visible chars = true ->
    modbus_client.words_to_ascii (pack_ascii chars) = string_of_list_ascii chars.
Proof.
  intros chars Hv. unfold modbus_client.words_to_ascii. cbv zeta.
  destruct (pack_ascii_bytes chars) as (pad & -> & Hpad).
  rewrite forallb_forall in Hv.
  assert (Hvis : forall c, In c chars ->
             Ascii.eqb zero c = false /\ (N_of_ascii c < 128)%N /\
             modbus_client.isspace c = false).
  { intros c Hc. specialize (Hv c Hc). unfold visible in Hv.
    apply andb_true_iff in Hv as [Hz Hv]. apply andb_true_iff in Hv as [Hn Hs].
    apply negb_true_iff in Hz, Hs. apply N.ltb_lt in Hn.
    rewrite Ascii.eqb_sym. auto. }
  assert (Hdec : modbus_client.decode_ascii_ignore
                   (map (fun c => Z.of_N (N_of_ascii c)) (chars ++ pad)) = chars ++ pad).
  { unfold modbus_client.decode_ascii_ignore.
    assert (Hkeep : forall l, (forall c, In c l -> (N_of_ascii c < 128)%N) ->
               map modbus_client.byte_char
                 (filter (fun b => b <? 128) (map (fun c => Z.of_N (N_of_ascii c)) l)) = l).
    { induction l as [|c l IH]; intros Hl; simpl; [reflexivity|].
      assert (Hc : (N_of_ascii c < 128)%N) by (apply Hl; now left).
      replace (Z.of_N (N_of_ascii c) <? 128) with true by (symmetry; apply Z.ltb_lt; lia).
      simpl. unfold modbus_client.byte_char at 1.
      rewrite N2Z.id, ascii_N_embedding. f_equal. apply IH.
      intros c' Hc'. apply Hl. now right. }
    apply Hkeep. intros c Hc. apply in_app_iff in Hc as [Hc|Hc].
    - apply Hvis, Hc.
    - rewrite Forall_forall in Hpad. specialize (Hpad c Hc).
      apply Ascii.eqb_eq in Hpad. subst c. reflexivity. }
  rewrite Hdec.
  rewrite rstrip_padding;
    [| apply Forall_forall; intros c Hc; apply Hvis, Hc | exact Hpad].
  unfold modbus_client.strip.
  rewrite dropwhile_none by (apply Forall_forall; intros c Hc; apply Hvis, Hc).
  replace chars with (chars ++ []) at 1 by apply app_nil_r.
  rewrite rstrip_padding;
    [reflexivity | apply Forall_forall; intros c Hc; apply Hvis, Hc | constructor].
Qed.

Lemma words_to_ascii_pack_witness :
  modbus_client.words_to_ascii (pack_ascii (list_ascii_of_string "QMB6"))
  = string_of_list_ascii (list_ascii_of_string "QMB6").
Proof. apply words_to_ascii_pack. reflexivity. Defined.

(** X4. The text decoded from any registers has no white space at either
    end. *)
Theorem words_to_ascii_stripped :
  forall words c rest,
    list_ascii_of_string (modbus_client.words_to_ascii words) = c :: rest ->
    modbus_client.isspace c = false /\
    modbus_client.isspace (last (c :: rest) c) = false.
Proof.
  intros words c rest. unfold modbus_client.words_to_ascii. cbv zeta.
  rewrite list_ascii_of_string_of_list_ascii. apply strip_edges.
Qed.

Lemma words_to_ascii_stripped_witness :
  modbus_client.isspace "A" = false /\
  modbus_client.isspace (last ["A"; " "; "B"]%char "A"%char) = false.
Proof.
  apply (@words_to_ascii_stripped [0x2041; 0x2042; 0x2000] "A"%char [" "; "B"]%char).
  reflexivity.
Defined.

(** ** Symbol maps, unknown types and short answers *)

Section Decoding.
Context {Dev : Type} {host : Host Dev}.

Import modbus_client.

Lemma bitmask_flags_acc items masks w acc :
  map (fun kv => py_int (fst kv)) items = map Ok masks ->
  bitmask_flags items w acc =
  Ok (acc ++ map (fun km => snd (fst km))
               (filter (fun km => negb (Z.eqb (Z.land w (snd km)) 0))
                       (combine items masks))).
Proof.
  revert masks acc. induction items as [|[k v] items IH]; intros masks acc Hm.
  - simpl. now rewrite app_nil_r.
  - destruct masks as [|m masks]; [discriminate|].
    simpl in Hm. injection Hm as Hk Hrest.
    cbn [bitmask_flags]. rewrite Hk. rewrite (IH masks _ Hrest).
    cbn [combine filter snd fst].
    destruct (Z.eqb (Z.land w m) 0); cbn [negb map]; [reflexivity|].
    now rewrite <- app_assoc.
Qed.

Lemma bitmask_flags_bad_key items1 k v items2 masks e w acc :
  map (fun kv => py_int (fst kv)) items1 = map Ok masks ->
  py_int k = Raise e ->
  bitmask_flags (items1 ++ (k, v) :: items2) w acc = Raise e.
Proof.
  revert masks acc. induction items1 as [|[k1 v1] items1 IH]; intros masks acc Hm Hk.
  - cbn [app bitmask_flags]. now rewrite Hk.
  - destruct masks as [|m masks]; [discriminate|].
    simpl in Hm. injection Hm as Hk1 Hrest.
    cbn [app bitmask_flags]. rewrite Hk1. now apply IH with (masks := masks).
Qed.

Lemma reg_value_unreadable cli r endianness t a d :
  r_type r = Some t -> reads_line t = false -> r_address r = Some a ->
  reg_value cli r endianness d = (Ok (VStr "UNSUPPORTED"), d).
Proof.
  intros Ht Hr Ha. unfold reg_value, bind, lift, getitem. rewrite Ht, Ha.
  unfold reads_line in Hr. apply orb_false_iff in Hr as [H16 H32].
  unfold word16_types in H16. unfold multiword_types in H32.
  cbv beta iota. now rewrite H16, H32.
Qed.

Lemma read_all_single_raise cli r endianness name x d d' :
  r_name r = Some name ->
  reg_value cli r endianness d = (Raise x, d') ->
  read_all cli [r] endianness d = (Ok [(name, VStr ("ERR:" ++ x))], d').
Proof.
  intros Hn Hv. unfold read_all. cbn [read_all_loop]. unfold bind.
  rewrite (read_all_step_named cli endianness [] r d Hn), Hv. reflexivity.
Qed.
End Decoding.

(** X5. The flags of a bitmask16 register are the labels of the map whose
    mask shares a bit with the word, in the order of the map; no bit set gives
    no flag.  A key that is not an integer fails the whole decode with the
    error of [int]. *)
Theorem bitmask_flags_selects :
  forall Dev (host : Host Dev) items masks w,
    map (fun kv => py_int (fst kv)) items = map Ok masks ->
    modbus_client.bitmask_flags items w [] =
      Ok (map (fun km => snd (fst km))
            (filter (fun km => negb (Z.eqb (Z.land w (snd km)) 0))
                    (combine items masks))) /\
    modbus_client.bitmask_flags items 0 [] = Ok [] /\
    (forall k v rest e,
        py_int k = Raise e ->
        modbus_client.bitmask_flags (items ++ (k, v) :: rest) w [] = Raise e).
Proof.
  intros Dev host items masks w Hm. split; [|split].
  - now rewrite (bitmask_flags_acc items masks w [] Hm).
  - rewrite (bitmask_flags_acc items masks 0 [] Hm). f_equal.
    induction (combine items masks) as [|km l IH]; simpl; auto.
  - intros k v rest e Hk. eapply bitmask_flags_bad_key; eauto.
Qed.

Lemma bitmask_flags_selects_witness :
  modbus_client.bitmask_flags (host := bench.bench_host)
    [("1", "RUNNING"); ("2", "FAULT"); ("8", "HOLD")] 9 []
  = Ok ["RUNNING"; "HOLD"].
Proof.
  apply (proj1 (@bitmask_flags_selects bench.Bench bench.bench_host
                  [("1", "RUNNING"); ("2", "FAULT"); ("8", "HOLD")] [1; 2; 8] 9
                  eq_refl)).
Defined.

(** X6. A descriptor whose type is none of the eleven known ones is answered
    with 'UNSUPPORTED' without a transaction: the host is left as it was. *)
Theorem unsupported_type_reads_nothing :
  forall Dev (host : Host Dev) cli r endianness name t a d,
    r_name r = Some name -> r_type r = Some t -> reads_line t = false ->
    r_address r = Some a ->
    modbus_client.read_all cli [r] endianness d
    = (Ok [(name, VStr "UNSUPPORTED")], d).
Proof.
  intros Dev host cli r endianness name t a d Hn Ht Hr Ha.
  apply read_all_single; [exact Hn|].
  exact (reg_value_unreadable cli r endianness d Ht Hr Ha).
Qed.

Lemma unsupported_type_reads_nothing_witness :
  modbus_client.read_all (Some bench.com1) [bench.numeric "f" "float32" 8 1] "big"
    bench.unplugged
  = (Ok [("f", VStr "UNSUPPORTED")], bench.unplugged).
Proof.
  apply (@unsupported_type_reads_nothing bench.Bench bench.bench_host
           (Some bench.com1) (bench.numeric "f" "float32" 8 1) "big" "f"
           "float32" 8 bench.unplugged); reflexivity.
Defined.

(** X7. An answer that is too short becomes the marker 'ERR:IndexError': no
    word for a register of the 16-bit family, fewer than two words for a
    uint32 or int32. *)
Theorem short_answer_is_marked :
  forall Dev (host : Host Dev) cli r endianness name t a words d d',
    r_name r = Some name -> r_type r = Some t -> r_address r = Some a ->
    (str_in t word16_types = true /\ words = [] /\
     modbus_client.read_regs cli a 1 (get (r_function r) 3) d = (Ok words, d'))
    \/
    ((t = "uint32" \/ t = "int32") /\ (List.length words < 2)%nat /\
     modbus_client.read_regs cli a 2 (get (r_function r) 3) d = (Ok words, d')) ->
    modbus_client.read_all cli [r] endianness d
    = (Ok [(name, VStr "ERR:IndexError")], d').
Proof.
  intros Dev host cli r endianness name t a words d d' Hn Ht Ha Hcase.
  apply (read_all_single_raise cli r endianness (x := "IndexError") d Hn).
  unfold modbus_client.reg_value, bind, lift, getitem. rewrite Ht, Ha.
  cbv beta iota.
  destruct Hcase as [(H16 & -> & Hread) | (Hty & Hlen & Hread)].
  - unfold word16_types in H16. rewrite H16, Hread. reflexivity.
  - assert (Hasm : forall hi lo, (hi < 2)%nat -> (lo < 2)%nat -> hi <> lo ->
                 modbus_client.assemble32 words hi lo = Raise "IndexError").
    { intros hi lo Hhi Hlo Hne. unfold modbus_client.assemble32, index.
      destruct words as [|w0 [|w1 rest]]; [| |simpl in Hlen; lia].
      - destruct hi; reflexivity.
      - destruct hi as [|[|hi]], lo as [|[|lo]]; try lia; reflexivity. }
    destruct Hty as [-> | ->];
      cbn [str_in existsb String.eqb Ascii.eqb Bool.eqb orb andb];
      rewrite Hread;
      destruct (String.eqb endianness "big"); rewrite Hasm by lia; reflexivity.
Qed.

Lemma short_answer_is_marked_witness :
  modbus_client.read_all (host := silent_host) (Some bench.com1)
    [bench.numeric "n" "uint32" 3 1] "big" tt
  = (Ok [("n", VStr "ERR:IndexError")], tt).
Proof.
  apply (@short_answer_is_marked unit silent_host (Some bench.com1)
           (bench.numeric "n" "uint32" 3 1) "big" "n" "uint32" 3 [] tt tt
           eq_refl eq_refl eq_refl).
  right. split; [now left|]. split; [simpl; lia | reflexivity].
Defined.

(** ** Range of the 32-bit values *)

Lemma testbit31_ge (u : Z) :
  0 <= u < 2 ^ 32 -> Z.testbit u 31 = true <-> 2 ^ 31 <= u.
Proof.
  intros Hu. rewrite Z.testbit_true by lia.
  assert (Hq : 0 <= u / 2 ^ 31 < 2).
  { split; [apply Z.div_pos; lia | apply Z.div_lt_upper_bound; lia]. }
  split.
  - intros H. destruct (Z.lt_ge_cases u (2 ^ 31)) as [Hlt|Hge]; [|exact Hge].
    rewrite Z.div_small in H by lia. discriminate H.
  - intros H. assert (Hone : u / 2 ^ 31 = 1).
    { assert (1 <= u / 2 ^ 31) by (apply Z.div_le_lower_bound; lia). lia. }
    now rewrite Hone.
Qed.

(** X8. From two 16-bit words a uint32 descriptor decodes to scale times an
    integer of [0, 2^32), an int32 descriptor to scale times an integer of
    [-2^31, 2^31) that is congruent to the unsigned value modulo 2^32. *)
Theorem decode_32bit_range :
  forall Dev (host : Host Dev) cli r endianness t a w0 w1 d d',
    r_type r = Some t -> t = "uint32" \/ t = "int32" ->
    r_address r = Some a ->
    modbus_client.read_regs cli a 2 (get (r_function r) 3) d = (Ok [w0; w1], d') ->
    0 <= w0 <= 0xFFFF -> 0 <= w1 <= 0xFFFF ->
    exists v,
      modbus_client.reg_value cli r endianness d =
        (Ok (VFloat (inject_Z v * get (r_scale r) 1%Q)), d') /\
      (t = "uint32" -> 0 <= v < 2 ^ 32) /\
      (t = "int32" -> - 2 ^ 31 <= v < 2 ^ 31) /\
      v mod 2 ^ 32 = unsigned32 endianness w0 w1.
Proof.
  intros Dev host cli r endianness t a w0 w1 d d' Ht Hty Ha Hread H0 H1.
  exists (value32 t endianness w0 w1).
  split; [eapply reg_value_32bit; eassumption|].
  assert (Hu : 0 <= unsigned32 endianness w0 w1 < 2 ^ 32).
  { unfold unsigned32. destruct (String.eqb endianness "big"); lia. }
  pose proof (testbit31_ge Hu) as Hbit.
  unfold value32. split; [|split].
  - intros ->. cbn [String.eqb Ascii.eqb Bool.eqb andb]. exact Hu.
  - intros ->. cbn [String.eqb Ascii.eqb Bool.eqb andb].
    destruct (Z.testbit (unsigned32 endianness w0 w1) 31).
    + assert (2 ^ 31 <= unsigned32 endianness w0 w1) by now apply Hbit. lia.
    + assert (~ 2 ^ 31 <= unsigned32 endianness w0 w1).
      { intros H. apply Hbit in H. discriminate H. }
      lia.
  - destruct (andb (String.eqb t "int32") (Z.testbit (unsigned32 endianness w0 w1) 31)).
    + replace (unsigned32 endianness w0 w1 - 2 ^ 32)
        with (unsigned32 endianness w0 w1 + (-1) * 2 ^ 32) by lia.
      rewrite Z_mod_plus_full. apply Z.mod_small. exact Hu.
    + apply Z.mod_small. exact Hu.
Qed.

Lemma decode_32bit_range_witness :
  exists v,
    modbus_client.reg_value (Some bench.com1) (bench.numeric "n" "int32" 30 1)
      "little" (bench.device [(30, 0x0000); (31, 0x8000)] [])
    = (Ok (VFloat (inject_Z v * 1)), bench.device [(30, 0x0000); (31, 0x8000)] []) /\
    - 2 ^ 31 <= v < 2 ^ 31.
Proof.
  destruct (@decode_32bit_range bench.Bench bench.bench_host (Some bench.com1)
              (bench.numeric "n" "int32" 30 1) "little" "int32" 30 0x0000 0x8000
              (bench.device [(30, 0x0000); (31, 0x8000)] [])
              (bench.device [(30, 0x0000); (31, 0x8000)] [])
              eq_refl (or_intror eq_refl) eq_refl eq_refl ltac:(lia) ltac:(lia))
    as (v & Hv & _ & Hrange & _).
  exists v. split; [exact Hv | exact (Hrange eq_refl)].
Defined.

(** ** Looking a register up *)

(** X9. [find_reg] returns the first descriptor of the list that carries the
    name: the descriptors before it carry other names.  On a list of named
    descriptors it raises KeyError exactly when no descriptor carries the
    name. *)
Theorem find_reg_first_match :
  forall regs name,
    (forall r,
        modbus_client.find_reg regs name = Ok r ->
        exists pre post,
          regs = pre ++ r :: post /\ r_name r = Some name /\
          ~ In name (reg_names pre)) /\
    (Forall named regs ->
     (modbus_client.find_reg regs name = Raise "KeyError" <->
      ~ In name (reg_names regs))).
Proof.
  intros regs name. split.
  - induction regs as [|r0 regs IH]; intros r; simpl; [discriminate|].
    unfold getitem. destruct (r_name r0) as [n0|] eqn:Hn0; [|discriminate].
    destruct (String.eqb_spec n0 name) as [->|Hne].
    + intros [= <-]. exists [], regs. repeat split; auto.
    + intros Hf. destruct (IH r Hf) as (pre & post & -> & Hn & Hpre).
      exists (r0 :: pre), post. repeat split; auto.
      rewrite (reg_names_cons r0 pre Hn0). simpl. intros [H|H]; auto.
  - intros Hall. induction Hall as [|r0 regs [n0 Hn0] _ IH].
    + simpl. split; auto.
    + cbn [modbus_client.find_reg].
      unfold getitem. rewrite Hn0, (reg_names_cons r0 regs Hn0). simpl.
      destruct (String.eqb_spec n0 name) as [->|Hne].
      * split; [discriminate | intros H; exfalso; apply H; now left].
      * rewrite IH. split; [intros H [E|E]; auto | intros H E; apply H; now right].
Qed.

Lemma find_reg_first_match_witness :
  modbus_client.find_reg
    [bench.numeric "a" "uint16" 1 1; bench.numeric "b" "uint16" 2 1] "c"
  = Raise "KeyError".
Proof.
  apply (proj2 (find_reg_first_match
                  [bench.numeric "a" "uint16" 1 1; bench.numeric "b" "uint16" 2 1] "c")).
  - repeat constructor; eexists; reflexivity.
  - simpl. intros [H|[H|[]]]; discriminate H.
Defined.

(** ** Raw values *)

Lemma round_half_even_integer (n : Z) (q : Q) :
  (q == inject_Z n)%Q -> round_half_even q = n.
Proof.
  intros E. rewrite (round_half_even_comp E). unfold round_half_even.
  rewrite Qfloor_Z.
  destruct (Qlt_le_dec (inject_Z n - inject_Z n) (1 # 2)) as [_|H]; [reflexivity|].
  exfalso. lra.
Qed.

(** X10. Encoding undoes decoding: for a non-zero scale, the engineering
    value that a raw integer n decodes to, n times the scale, is encoded by
    [scale_to_raw] as n (in exact arithmetic). *)
Theorem scale_to_raw_of_decoded :
  forall (reg : reg) (n : Z),
    (~ get (r_scale reg) 1 == 0)%Q ->
    modbus_client.scale_to_raw (Fin (inject_Z n * get (r_scale reg) 1%Q)) reg = Ok n.
Proof.
  intros reg n Hs. unfold modbus_client.scale_to_raw. cbv zeta.
  destruct (Qeq_bool (get (r_scale reg) 1%Q) 0) eqn:E.
  - apply Qeq_bool_iff in E. contradiction.
  - cbn [negb py_div py_round]. f_equal.
    apply round_half_even_integer. field. exact Hs.
Qed.

Lemma scale_to_raw_of_decoded_witness :
  modbus_client.scale_to_raw (Fin (inject_Z 1234 * (1 # 100)))
    (bench.numeric "alpha" "uint16" 4 (1 # 100)) = Ok 1234.
Proof.
  apply (@scale_to_raw_of_decoded (bench.numeric "alpha" "uint16" 4 (1 # 100)) 1234).
  vm_compute. discriminate.
Defined.

(** ** Writes that fail before the line, and writes by label *)

Section WriteFailures.
Context {Dev : Type} {host : Host Dev}.

Import modbus_client app_gui.

Lemma inverse_map_lookup items :
  forall inv k v n,
    NoDup (map (fun kv => lower (snd kv)) items) ->
    (forall k' v', In (k', v') items -> exists n', py_int k' = Ok n') ->
    In (k, v) items -> py_int k = Ok n ->
    exists inv',
      inverse_map items inv = Ok inv' /\ dict_get (lower v) inv' = Some n.
Proof.
  induction items as [|[k0 v0] items IH]; intros inv k v n Hnd Hall Hin Hk.
  - destruct Hin.
  - cbn [map snd] in Hnd. inversion Hnd as [|? ? Hfresh Hnd']; subst.
    cbn [inverse_map].
    destruct (Hall k0 v0 (or_introl eq_refl)) as (n0 & Hk0). rewrite Hk0.
    assert (Hall' : forall k' v', In (k', v') items -> exists n', py_int k' = Ok n').
    { intros k' v' H. apply (Hall k' v'). now right. }
    destruct Hin as [[= -> ->] | Hin].
    + rewrite Hk in Hk0. injection Hk0 as <-.
      assert (Hkeep : forall l acc,
                 ~ In (lower v) (map (fun kv => lower (snd kv)) l) ->
                 (forall k' v', In (k', v') l -> exists n', py_int k' = Ok n') ->
                 dict_get (lower v) acc = Some n ->
                 exists inv', inverse_map l acc = Ok inv' /\
                              dict_get (lower v) inv' = Some n).
      { induction l as [|[k1 v1] l IHl]; intros acc Hf Hl Hacc.
        - exists acc. split; [reflexivity | exact Hacc].
        - cbn [inverse_map].
          destruct (Hl k1 v1 (or_introl eq_refl)) as (n1 & Hk1). rewrite Hk1.
          apply IHl.
          + intros H. apply Hf. cbn [map snd]. now right.
          + intros k' v' H. apply (Hl k' v'). now right.
          + rewrite dict_get_set_other; [exact Hacc|].
            intros E. apply Hf. cbn [map snd]. left. now symmetry. }
      apply Hkeep; auto. apply dict_get_set_same.
    + eapply IH; eauto.
Qed.
End WriteFailures.

(** X11. A write that fails while the value is worked out does not reach the
    line: an unknown register name (KeyError), a text that [float] rejects on
    a numeric register, and an infinite or NaN value on a numeric register
    without bounds (OverflowError, ValueError) all raise with the host left as
    it was. *)
Theorem on_write_fails_before_the_line :
  forall Dev (host : Host Dev) regs cli name channel text d,
    (forall e, modbus_client.find_reg regs name = Raise e ->
       app_gui._on_write regs cli name channel text d = (Raise e, d)) /\
    (forall reg t,
        modbus_client.find_reg regs name = Ok reg ->
        r_type reg = Some t -> t <> "bool16" ->
        (t = "enum16" -> r_map reg = None) ->
        (forall e, py_float text = Raise e ->
           app_gui._on_write regs cli name channel text d = (Raise e, d)) /\
        (r_min reg = None -> r_max reg = None ->
         (py_float text = Ok PInf \/ py_float text = Ok NInf ->
          app_gui._on_write regs cli name channel text d = (Raise "OverflowError", d)) /\
         (py_float text = Ok NaN ->
          app_gui._on_write regs cli name channel text d = (Raise "ValueError", d)))).
Proof.
  intros Dev host regs cli name channel text d. split.
  - intros e Hf. unfold app_gui._on_write, bind, lift. now rewrite Hf.
  - intros reg t Hf Ht Hb He.
    assert (Hm : match r_type reg with
                 | Some t => if String.eqb t "enum16" then r_map reg else None
                 | None => None
                 end = None).
    { rewrite Ht. destruct (String.eqb_spec t "enum16"); auto. }
    assert (Hb' : String.eqb t "bool16" = false).
    { destruct (String.eqb_spec t "bool16"); congruence. }
    split.
    + intros e Hp. unfold app_gui._on_write, bind, lift, getitem.
      rewrite Hf, Hm, Ht, Hb', Hp. reflexivity.
    + intros Hmin Hmax.
      assert (Hraw : forall fv x,
                 py_float text = Ok fv ->
                 modbus_client.scale_to_raw fv reg = Raise x ->
                 app_gui._on_write regs cli name channel text d = (Raise x, d)).
      { intros fv x Hp Hs. unfold app_gui._on_write, bind, lift, getitem.
        rewrite Hf, Hm, Ht, Hb', Hp, Hmin, Hmax, Hs. reflexivity. }
      assert (Hinf : forall fv, fv = PInf \/ fv = NInf ->
                 modbus_client.scale_to_raw fv reg = Raise "OverflowError").
      { intros fv Hfv. unfold modbus_client.scale_to_raw. cbv zeta.
        destruct (negb (Qeq_bool (get (r_scale reg) 1%Q) 0));
          destruct Hfv as [-> | ->]; cbn [py_div py_round]; try reflexivity;
          destruct (Qlt_le_dec 0 (get (r_scale reg) 1%Q)); reflexivity. }
      split.
      * intros [Hp|Hp]; apply (Hraw _ _ Hp); apply Hinf; auto.
      * intros Hp. apply (Hraw _ _ Hp). unfold modbus_client.scale_to_raw. cbv zeta.
        destruct (negb (Qeq_bool (get (r_scale reg) 1%Q) 0)); reflexivity.
Qed.

Lemma on_write_fails_before_the_line_witness :
  app_gui._on_write [bench.numeric "w" "uint16" 7 1] (Some bench.com1) "w" 1 "inf"
    (bench.device [] [])
  = (Raise "OverflowError", bench.device [] []).
Proof.
  apply (proj2 (@on_write_fails_before_the_line bench.Bench bench.bench_host
                  [bench.numeric "w" "uint16" 7 1] (Some bench.com1) "w" 1 "inf"
                  (bench.device [] []))
           (bench.numeric "w" "uint16" 7 1) "uint16").
  - reflexivity.
  - reflexivity.
  - discriminate.
  - discriminate.
  - reflexivity.
  - reflexivity.
  - left. reflexivity.
Defined.

(** X12. On an enum16 register with a map, a text that equals a label of the
    map up to letter case is written as the integer key of that label,
    provided the keys are integers and no two labels agree up to case. *)
Theorem on_write_enum_label :
  forall Dev (host : Host Dev) regs cli name channel text reg m a k v n d,
    modbus_client.find_reg regs name = Ok reg ->
    r_type reg = Some "enum16" -> r_map reg = Some m -> r_address reg = Some a ->
    NoDup (map (fun kv => lower (snd kv)) m) ->
    (forall k' v', In (k', v') m -> exists n', py_int k' = Ok n') ->
    In (k, v) m -> py_int k = Ok n ->
    lower text = lower v ->
    app_gui._on_write regs cli name channel text d =
    modbus_client.write_u16 cli a n 6 d.
Proof.
  intros Dev host regs cli name channel text reg m a k v n d
         Hf Ht Hm Ha Hnd Hall Hin Hk Htext.
  destruct (inverse_map_lookup m [] k v Hnd Hall Hin Hk) as (inv & Hinv & Hget).
  unfold app_gui._on_write, bind, lift, getitem.
  rewrite Hf, Ht. cbn [String.eqb Ascii.eqb Bool.eqb]. rewrite Hm, Hinv.
  rewrite Htext, Hget, Ha. reflexivity.
Qed.

Lemma on_write_enum_label_witness :
  app_gui._on_write
    [bench.symbolic "osc" "enum16" 6 [("0", "internal"); ("1", "external")]]
    (Some bench.com1) "osc" 1 "External" (bench.device [] [])
  = modbus_client.write_u16 (Some bench.com1) 6 1 6 (bench.device [] []).
Proof.
  apply (@on_write_enum_label bench.Bench bench.bench_host
           [bench.symbolic "osc" "enum16" 6 [("0", "internal"); ("1", "external")]]
           (Some bench.com1) "osc" 1 "External"
           (bench.symbolic "osc" "enum16" 6 [("0", "internal"); ("1", "external")])
           [("0", "internal"); ("1", "external")] 6 "1" "external" 1
           (bench.device [] [])); try reflexivity.
  - repeat constructor; simpl; intuition discriminate.
  - intros k' v' [[= <- <-]|[[= <- <-]|[]]]; eexists; reflexivity.
  - right. left. reflexivity.
Defined.

(** ** Discovery at its edges *)

(** X13. A probe register whose type is not read from the line makes every
    port that can be opened a match: the probe says yes after the 50 ms pause
    and without a single transaction. *)
Theorem probe_of_unread_type_accepts :
  forall Dev (host : Host Dev) port baud parity slave_id endianness probe_reg
         name t a cli d d1,
    r_name probe_reg = Some name -> r_type probe_reg = Some t ->
    reads_line t = false -> r_address probe_reg = Some a ->
    modbus_client.RTUClient_init port baud slave_id parity d = (Ok cli, d1) ->
    autodetect._probe_once port baud parity slave_id endianness probe_reg d
    = (Ok true, time_sleep (5 # 100) d1).
Proof.
  intros Dev host port baud parity slave_id endianness probe_reg name t a cli d d1
         Hn Ht Hr Ha Hinit.
  apply _probe_once_accepts.
  exists cli, d1, name, [(name, VStr "UNSUPPORTED")].
  split; [exact Hinit|]. split; [exact Hn|]. split.
  - apply read_all_single; [exact Hn|].
    exact (reg_value_unreadable (Some cli) probe_reg endianness
             (time_sleep (5 # 100) d1) Ht Hr Ha).
  - cbn [dict_get]. rewrite String.eqb_refl. reflexivity.
Qed.

Lemma probe_of_unread_type_accepts_witness :
  fst (autodetect._probe_once "COM1" 115200 "NONE" 1 "big"
         (bench.numeric "p" "float32" 10 1) (bench.device [] []))
  = Ok true.
Proof.
  rewrite (@probe_of_unread_type_accepts bench.Bench bench.bench_host
             "COM1" 115200 "NONE" 1 "big" (bench.numeric "p" "float32" 10 1)
             "p" "float32" 10 (mkRTUClient "COM1" 115200 1 "NONE" 1 (2 # 10))
             (bench.device [] []) (bench.device [] [])
             eq_refl eq_refl eq_refl eq_refl eq_refl).
  reflexivity.
Defined.

(** X14. [autodetect] stops on a configuration it cannot use before it looks
    at any port: what [load_config] raises is raised; a missing 'slave_id' or
    'endianness' is a KeyError; without a usable 'probe', a missing
    'registers' is a KeyError and an empty one an IndexError.  The host is
    left as [load_config] left it. *)
Theorem autodetect_rejects_bad_config :
  forall Dev (host : Host Dev) d,
    (forall e d0, load_config d = (Raise e, d0) ->
       autodetect.autodetect d = (Raise e, d0)) /\
    (forall cfg d0,
        load_config d = (Ok cfg, d0) ->
        (c_slave_id cfg = None ->
         autodetect.autodetect d = (Raise "KeyError", d0)) /\
        (forall s, c_slave_id cfg = Some s -> c_endianness cfg = None ->
         autodetect.autodetect d = (Raise "KeyError", d0)) /\
        (forall s e,
            c_slave_id cfg = Some s -> c_endianness cfg = Some e ->
            (c_probe cfg = None \/
             exists p, c_probe cfg = Some p /\ reg_truthy p = false) ->
            (c_registers cfg = None ->
             autodetect.autodetect d = (Raise "KeyError", d0)) /\
            (c_registers cfg = Some [] ->
             autodetect.autodetect d = (Raise "IndexError", d0)))).
Proof.
  intros Dev host d. split.
  - intros e d0 Hl. unfold autodetect.autodetect, bind. now rewrite Hl.
  - intros cfg d0 Hl. split; [|split].
    + intros Hs. unfold autodetect.autodetect, bind, lift, getitem.
      now rewrite Hl, Hs.
    + intros s Hs He. unfold autodetect.autodetect, bind, lift, getitem.
      now rewrite Hl, Hs, He.
    + intros s e Hs He Hp. split; intros Hr;
        unfold autodetect.autodetect, bind, lift, getitem;
        rewrite Hl, Hs, He;
        destruct Hp as [Hp | (p & Hp & Hf)]; rewrite Hp; try rewrite Hf;
        rewrite Hr; reflexivity.
Qed.

Lemma autodetect_rejects_bad_config_witness :
  fst (autodetect.autodetect
         (bench.installed (bench.device [] [])
            (mkConfig (Some 1) (Some "big") None (Some [])) ["COM1"]))
  = Raise "IndexError".
Proof.
  rewrite (proj2 (proj2 (proj2
            (proj2 (@autodetect_rejects_bad_config bench.Bench bench.bench_host
               (bench.installed (bench.device [] [])
                  (mkConfig (Some 1) (Some "big") None (Some [])) ["COM1"]))
               (mkConfig (Some 1) (Some "big") None (Some []))
               (bench.installed (bench.device [] [])
                  (mkConfig (Some 1) (Some "big") None (Some [])) ["COM1"])
               eq_refl))
            1 "big" eq_refl eq_refl (or_introl eq_refl)) eq_refl).
  reflexivity.
Defined.

(** ** The worker loop over many turns *)

Section WorkerInvariants.
Context {Dev : Type} {host : Host Dev}.

Import modbus_client app_gui.

Lemma turns_keep_refl (self : App) n : turns_keep self self n.
Proof.
  unfold turns_keep. repeat split; auto.
  exists []. split; [now rewrite app_nil_r | simpl; lia].
Qed.

Lemma turns_keep_trans (a b c : App) n m :
  turns_keep a b n -> turns_keep b c m -> turns_keep a c (n + m).
Proof.
  intros (Hr & He & Hs & (ev1 & Hq1 & Hl1) & Hi1) (Hr' & He' & Hs' & (ev2 & Hq2 & Hl2) & Hi2).
  unfold turns_keep. repeat split; try congruence.
  - exists (ev1 ++ ev2). split.
    + now rewrite Hq2, Hq1, app_assoc.
    + rewrite length_app. lia.
  - intros Hinv. apply Hi2. now apply Hi1.
Qed.

Lemma worker_turn_keeps (self : App) d :
  exists self' d', worker_turn self d = (Ok self', d') /\ turns_keep self self' 1.
Proof.
  assert (Hevent : forall c b ev,
             turns_keep self
               (mkApp (regs self) (endianness self) (slave self) c b (q self ++ [ev])) 1
             \/ (b = true /\ c = None)).
  { intros c b ev. destruct b, c as [c0|]; auto; left;
      unfold turns_keep; cbn; repeat split; auto;
      try (exists [ev]; split; [reflexivity | simpl; lia]);
      intros; discriminate. }
  unfold worker_turn, try_except, bind, sleep, now, ret.
  destruct (connected self) eqn:Hc; cbn [negb].
  - destruct (read_all (cli self) (regs self) (endianness self) d) as [[values|e] d1].
    + eexists; eexists; split; [reflexivity|].
      unfold turns_keep; cbn. repeat split; auto.
      eexists; split; [reflexivity | simpl; lia].
    + eexists; eexists; split; [reflexivity|].
      destruct (Hevent None false
                  (Status ("Disconnected: " ++ e ++ ". Waiting for device…")))
        as [H|[H _]]; [exact H | discriminate H].
  - destruct (autodetect.autodetect d) as [[[[[port baud] parity]|]|e] d1].
    + destruct (RTUClient_init port baud (slave self) parity d1) as [[c|e] d2].
      * eexists; eexists; split; [reflexivity|].
        match goal with |- turns_keep _ (mkApp _ _ _ ?c ?b (_ ++ [?ev])) _ =>
          destruct (Hevent c b ev) as [H|[_ H]]; [exact H | discriminate H] end.
      * eexists; eexists; split; [reflexivity|].
        match goal with |- turns_keep _ (mkApp _ _ _ ?c ?b (_ ++ [?ev])) _ =>
          destruct (Hevent c b ev) as [H|[H _]]; [exact H | discriminate H] end.
    + eexists; eexists; split; [reflexivity|]. apply turns_keep_refl.
    + eexists; eexists; split; [reflexivity|].
      match goal with |- turns_keep _ (mkApp _ _ _ ?c ?b (_ ++ [?ev])) _ =>
        destruct (Hevent c b ev) as [H|[H _]]; [exact H | discriminate H] end.
Qed.
End WorkerInvariants.

(** X15. The worker loop never raises, whatever discovery, the client and
    the line do.  Over n turns it keeps the register list, the endianness and
    the slave id, only appends to the queue, at most one event a turn, and
    never ends a turn connected without a client. *)
Theorem worker_loop_keeps_running :
  forall Dev (host : Host Dev) n self d,
    exists self' d',
      app_gui._worker_loop n self d = (Ok self', d') /\ turns_keep self self' n.
Proof.
  intros Dev host n. induction n as [|n IH]; intros self d.
  - exists self, d. split; [reflexivity | apply turns_keep_refl].
  - destruct (worker_turn_keeps self d) as (s1 & d1 & Hturn & Hk1).
    destruct (IH s1 d1) as (s2 & d2 & Hloop & Hk2).
    exists s2, d2. split.
    + cbn [app_gui._worker_loop]. unfold bind. now rewrite Hturn.
    + exact (turns_keep_trans Hk1 Hk2).
Qed.

(** X16. A turn that starts disconnected ends connected exactly when
    discovery returned a triple and a client could be opened on it; the loop
    then holds that client and has queued the status event naming the triple
    and the slave id. *)
Theorem worker_connects_to_discovered :
  forall Dev (host : Host Dev) self d self' d',
    app_gui.connected self = false ->
    app_gui.worker_turn self d = (Ok self', d') ->
    (app_gui.connected self' = true <->
     exists port baud parity d1 c,
       autodetect.autodetect d = (Ok (Some (port, baud, parity)), d1) /\
       modbus_client.RTUClient_init port baud (app_gui.slave self) parity d1
         = (Ok c, d') /\
       app_gui.cli self' = Some c /\
       app_gui.q self' =
         app_gui.q self ++
         [app_gui.Status ("Connected: " ++ port ++ " " ++ py_str_of_int baud
                          ++ " " ++ parity ++ ", slave="
                          ++ py_str_of_int (app_gui.slave self))]).
Proof.
  intros Dev host self d self' d' Hc.
  unfold app_gui.worker_turn, try_except, bind, sleep, ret. rewrite Hc. cbn [negb].
  destruct (autodetect.autodetect d) as [[[[[port baud] parity]|]|e] d1] eqn:Hauto.
  - destruct (modbus_client.RTUClient_init port baud (app_gui.slave self) parity d1)
      as [[c|e] d2] eqn:Hinit.
    + intros [= <- <-]. split; [intros _ | reflexivity].
      exists port, baud, parity, d1, c. repeat split; auto.
    + intros [= <- <-]. split; [discriminate|].
      intros (p & b & par & d3 & c & [= <- <- <- <-] & Hi & _).
      rewrite Hinit in Hi. discriminate Hi.
  - intros [= <- <-]. split; [congruence|].
    intros (p & b & par & d3 & c & Ha & _). discriminate Ha.
  - intros [= <- <-]. split; [discriminate|].
    intros (p & b & par & d3 & c & Ha & _). discriminate Ha.
Qed.

Lemma worker_connects_to_discovered_witness :
  exists self' d',
    app_gui.worker_turn
      (app_gui.mkApp [bench.numeric "p" "uint16" 10 1] "big" 1 None false [])
      (bench.installed (bench.device [(10, 5)] [])
         (mkConfig (Some 1) (Some "big") None
            (Some [bench.numeric "p" "uint16" 10 1])) ["COM1"])
    = (Ok self', d') /\
    app_gui.connected self' = false /\
    ~ (exists port baud parity d1 c,
          autodetect.autodetect
            (bench.installed (bench.device [(10, 5)] [])
               (mkConfig (Some 1) (Some "big") None
                  (Some [bench.numeric "p" "uint16" 10 1])) ["COM1"])
          = (Ok (Some (port, baud, parity)), d1) /\
          modbus_client.RTUClient_init port baud 1 parity d1 = (Ok c, d') /\
          app_gui.cli self' = Some c /\
          app_gui.q self' =
            [app_gui.Status ("Connected: " ++ port ++ " " ++ py_str_of_int baud
                             ++ " " ++ parity ++ ", slave=" ++ py_str_of_int 1)]).
Proof.
  eexists. eexists. split; [vm_compute; reflexivity|].
  split; [reflexivity|].
  intros H.
  apply (proj2 (@worker_connects_to_discovered bench.Bench bench.bench_host
                  (app_gui.mkApp [bench.numeric "p" "uint16" 10 1] "big" 1
                     None false [])
                  (bench.installed (bench.device [(10, 5)] [])
                     (mkConfig (Some 1) (Some "big") None
                        (Some [bench.numeric "p" "uint16" 10 1])) ["COM1"])
                  _ _ eq_refl eq_refl)) in H.
  discriminate H.
Defined.

(** ** Crystal wear *)

Lemma clip01 (u : Q) : (0 <= max2 0 (min2 1 u) <= 1)%Q.
Proof.
  unfold max2, min2.
  destruct (Qlt_le_dec u 1); destruct (Qlt_le_dec 0 _); lra.
Qed.

(** X17. The crystal wear shown for a channel is always between 0 and 100,
    whatever the mapping holds. *)
Theorem crystal_usage_is_a_percentage :
  forall values ch_prefix,
    (0 <= app_gui_view.compute_crystal_usage values ch_prefix <= 100)%Q.
Proof.
  intros values ch_prefix. unfold app_gui_view.compute_crystal_usage. cbv zeta.
  destruct (app_gui_view.safe_number _) as [f_cur|]; [|lra].
  destruct (app_gui_view.safe_number _) as [f_min|]; [|lra].
  destruct (app_gui_view.safe_number _) as [f_max|]; [|lra].
  destruct (Qle_bool f_max f_min); [lra|].
  pose proof (clip01 ((f_max - f_cur) / (f_max - f_min))). lra.
Qed.

(** X18. The wear is 0 when one of the three frequencies of the channel is
    missing or is not a number (an error marker, say) and when the maximum
    does not exceed the minimum.  Otherwise it is 0 from the maximum
    frequency upwards, 100 from the minimum downwards, and in between the
    share (f_max - f_cur) / (f_max - f_min), in percent. *)
Theorem crystal_usage_values :
  forall values ch_prefix,
    let cur := number_of (dict_get (ch_prefix ++ "_Frequency_0p01Hz")%string values) in
    let lo := number_of (dict_get (ch_prefix ++ "_MinFreq_Hz")%string values) in
    let hi := number_of (dict_get (ch_prefix ++ "_MaxFreq_Hz")%string values) in
    (cur = None \/ lo = None \/ hi = None ->
     app_gui_view.compute_crystal_usage values ch_prefix = 0%Q) /\
    (forall f_cur f_min f_max,
        cur = Some f_cur -> lo = Some f_min -> hi = Some f_max ->
        ((f_max <= f_min)%Q ->
         app_gui_view.compute_crystal_usage values ch_prefix = 0%Q) /\
        ((f_min < f_max)%Q ->
         ((f_max <= f_cur)%Q ->
          (app_gui_view.compute_crystal_usage values ch_prefix == 0)%Q) /\
         ((f_cur <= f_min)%Q ->
          (app_gui_view.compute_crystal_usage values ch_prefix == 100)%Q) /\
         ((f_min <= f_cur <= f_max)%Q ->
          (app_gui_view.compute_crystal_usage values ch_prefix ==
           (f_max - f_cur) / (f_max - f_min) * 100)%Q))).
Proof.
  intros values ch_prefix cur lo hi.
  unfold app_gui_view.compute_crystal_usage, app_gui_view.safe_number. cbv zeta.
  fold cur. fold lo. fold hi. split.
  - intros [H|[H|H]]; rewrite H; destruct cur, lo, hi; reflexivity.
  - intros f_cur f_min f_max -> -> ->. split.
    + intros Hle. apply Qle_bool_iff in Hle. now rewrite Hle.
    + intros Hlt.
      assert (Hb : Qle_bool f_max f_min = false).
      { destruct (Qle_bool f_max f_min) eqn:E; auto.
        apply Qle_bool_iff in E. lra. }
      rewrite Hb.
      assert (Hden : (0 < f_max - f_min)%Q) by lra.
      set (u := ((f_max - f_cur) / (f_max - f_min))%Q).
      assert (Hu0 : (f_max <= f_cur -> u <= 0)%Q).
      { intros H. unfold u. apply Qle_shift_div_r; [exact Hden | lra]. }
      assert (Hu1 : (f_cur <= f_min -> 1 <= u)%Q).
      { intros H. unfold u. apply Qle_shift_div_l; [exact Hden | lra]. }
      assert (Hu01 : (f_min <= f_cur <= f_max -> 0 <= u <= 1)%Q).
      { intros H. unfold u. split.
        - apply Qle_shift_div_l; [exact Hden | lra].
        - apply Qle_shift_div_r; [exact Hden | lra]. }
      unfold max2, min2. repeat split; intros H.
      * specialize (Hu0 H).
        destruct (Qlt_le_dec u 1); destruct (Qlt_le_dec 0 _); lra.
      * specialize (Hu1 H).
        destruct (Qlt_le_dec u 1); destruct (Qlt_le_dec 0 _); lra.
      * specialize (Hu01 H).
        destruct (Qlt_le_dec u 1); destruct (Qlt_le_dec 0 _); lra.
Qed.

Lemma crystal_usage_values_witness :
  (app_gui_view.compute_crystal_usage
     [("CH1_Frequency_0p01Hz", VFloat 5975000); ("CH1_MinFreq_Hz", VFloat 5900000);
      ("CH1_MaxFreq_Hz", VFloat 6000000)] "CH1"
   == (6000000 - 5975000) / (6000000 - 5900000) * 100)%Q.
Proof.
  destruct (@crystal_usage_values
              [("CH1_Frequency_0p01Hz", VFloat 5975000);
               ("CH1_MinFreq_Hz", VFloat 5900000);
               ("CH1_MaxFreq_Hz", VFloat 6000000)] "CH1") as [_ H].
  destruct (H 5975000%Q 5900000%Q 6000000%Q eq_refl eq_refl eq_refl) as [_ Hin].
  destruct (Hin ltac:(reflexivity)) as (_ & _ & Hmid).
  apply Hmid. split; discriminate.
Defined.

(** ** Sample buffers and plot limits *)

Lemma deque_append_snoc (maxlen : nat) (l : list Q) (v : Q) :
  (1 <= maxlen)%nat ->
  deque_append maxlen l v = skipn (S (List.length l) - maxlen) l ++ [v].
Proof.
  intros Hn. unfold deque_append. rewrite length_app, skipn_app. simpl List.length.
  replace (List.length l + 1)%nat with (S (List.length l)) by lia.
  replace (S (List.length l) - maxlen - List.length l)%nat with 0%nat by lia.
  reflexivity.
Qed.

Lemma deque_append_length (maxlen : nat) (l : list Q) (v : Q) :
  List.length (deque_append maxlen l v) = Nat.min maxlen (S (List.length l)).
Proof.
  unfold deque_append. rewrite length_skipn, length_app. simpl. lia.
Qed.

Lemma deque_append_In (maxlen : nat) (l : list Q) (v y : Q) :
  In y (deque_append maxlen l v) -> In y l \/ y = v.
Proof.
  unfold deque_append. intros H.
  assert (Hin : In y (l ++ [v])).
  { rewrite <- (firstn_skipn (List.length (l ++ [v]) - maxlen) (l ++ [v])).
    apply in_or_app. now right. }
  apply in_app_or in Hin as [Hin|[Hin|[]]]; auto.
Qed.

Lemma seq_last_snoc (l : list Q) (v : Q) : seq_last (l ++ [v]) = Ok v.
Proof. unfold seq_last. now rewrite rev_app_distr. Qed.

Lemma fold_min_spec (rest : list Q) (a : Q) :
  let m := fold_left (fun m v => if Qlt_le_dec v m then v else m) rest a in
  In m (a :: rest) /\ (m <= a)%Q /\ Forall (fun v => (m <= v)%Q) rest.
Proof.
  revert a. induction rest as [|b rest IH]; intros a; cbn [fold_left].
  - split; [now left|]. split; [lra | constructor].
  - destruct (Qlt_le_dec b a) as [Hlt|Hle].
    + destruct (IH b) as (Hin & Hm & Hall).
      split; [destruct Hin as [<-|Hin]; [right; now left | right; now right]|].
      split; [lra|]. constructor; auto.
    + destruct (IH a) as (Hin & Hm & Hall).
      split; [destruct Hin as [<-|Hin]; [now left | right; now right]|].
      split; [exact Hm|]. constructor; [lra | exact Hall].
Qed.

Lemma fold_max_spec (rest : list Q) (a : Q) :
  let m := fold_left (fun m v => if Qlt_le_dec m v then v else m) rest a in
  In m (a :: rest) /\ (a <= m)%Q /\ Forall (fun v => (v <= m)%Q) rest.
Proof.
  revert a. induction rest as [|b rest IH]; intros a; cbn [fold_left].
  - split; [now left|]. split; [lra | constructor].
  - destruct (Qlt_le_dec a b) as [Hlt|Hle].
    + destruct (IH b) as (Hin & Hm & Hall).
      split; [destruct Hin as [<-|Hin]; [right; now left | right; now right]|].
      split; [lra|]. constructor; auto.
    + destruct (IH a) as (Hin & Hm & Hall).
      split; [destruct Hin as [<-|Hin]; [now left | right; now right]|].
      split; [exact Hm|]. constructor; [lra | exact Hall].
Qed.

Lemma seq_min_spec (l : list Q) :
  l <> [] ->
  exists m, seq_min l = Ok m /\ In m l /\ Forall (fun v => (m <= v)%Q) l.
Proof.
  destruct l as [|a rest]; [congruence|]. intros _.
  destruct (fold_min_spec rest a) as (Hin & Hm & Hall).
  eexists. split; [reflexivity|]. split; [exact Hin|]. constructor; assumption.
Qed.

Lemma seq_max_spec (l : list Q) :
  l <> [] ->
  exists m, seq_max l = Ok m /\ In m l /\ Forall (fun v => (v <= m)%Q) l.
Proof.
  destruct l as [|a rest]; [congruence|]. intros _.
  destruct (fold_max_spec rest a) as (Hin & Hm & Hall).
  eexists. split; [reflexivity|]. split; [exact Hin|]. constructor; assumption.
Qed.

Lemma deque_append_nonempty (maxlen : nat) (l : list Q) (v : Q) :
  (1 <= maxlen)%nat -> deque_append maxlen l v <> [].
Proof.
  intros Hn. rewrite deque_append_snoc by exact Hn.
  intros E. apply app_eq_nil in E as [_ E]. discriminate E.
Qed.

Lemma deque_append_takes (maxlen : nat) (l : list Q) (v : Q) :
  takes_sample maxlen l v (deque_append maxlen l v).
Proof.
  split.
  - exists (firstn (List.length (l ++ [v]) - maxlen) (l ++ [v])).
    unfold deque_append. now rewrite firstn_skipn.
  - apply deque_append_length.
Qed.

Lemma deque_append_last (maxlen : nat) (l : list Q) (v : Q) :
  (1 <= maxlen)%nat -> seq_last (deque_append maxlen l v) = Ok v.
Proof.
  intros Hn. rewrite deque_append_snoc by exact Hn. apply seq_last_snoc.
Qed.

(** X19. [_update_plot] never raises.  Each of its three buffers takes its
    new sample: the old samples stay in their order, the new one stands at
    the end, and the buffer holds min(3600, n + 1) samples when it held n.
    The sample of the time buffer is 0 for the first call and the time since
    the first call afterwards; the sample of the first value buffer is the
    entry 'CH1_Thickness_A' of the mapping when that is a number and 0
    otherwise (missing, or a string such as an error marker), the sample of
    the second one likewise the entry 'CH2_Thickness_A'.  The time origin is
    set by the first call and kept afterwards. *)
Theorem update_plot_buffers :
  forall self ts v,
    exists self' lim,
      app_gui_view._update_plot self ts v = Ok (self', lim) /\
      takes_sample 3600 (app_gui_view.xs self)
        (match app_gui_view.t0 self with
         | None => 0%Q
         | Some t => (ts - t)%Q
         end)
        (app_gui_view.xs self') /\
      takes_sample 3600 (app_gui_view.y1 self)
        (match number_of (dict_get "CH1_Thickness_A" v) with
         | Some t1 => t1
         | None => 0%Q
         end)
        (app_gui_view.y1 self') /\
      takes_sample 3600 (app_gui_view.y2 self)
        (match number_of (dict_get "CH2_Thickness_A" v) with
         | Some t2 => t2
         | None => 0%Q
         end)
        (app_gui_view.y2 self') /\
      seq_last (app_gui_view.xs self')
        = Ok (match app_gui_view.t0 self with
              | None => 0%Q
              | Some t => (ts - t)%Q
              end) /\
      seq_last (app_gui_view.y1 self')
        = Ok (match number_of (dict_get "CH1_Thickness_A" v) with
              | Some t1 => t1
              | None => 0%Q
              end) /\
      seq_last (app_gui_view.y2 self')
        = Ok (match number_of (dict_get "CH2_Thickness_A" v) with
              | Some t2 => t2
              | None => 0%Q
              end) /\
      List.length (app_gui_view.xs self')
        = Nat.min 3600 (S (List.length (app_gui_view.xs self))) /\
      List.length (app_gui_view.y1 self')
        = Nat.min 3600 (S (List.length (app_gui_view.y1 self))) /\
      List.length (app_gui_view.y2 self')
        = Nat.min 3600 (S (List.length (app_gui_view.y2 self))) /\
      app_gui_view.t0 self'
        = Some (match app_gui_view.t0 self with None => ts | Some t => t end).
Proof.
  intros self ts v.
  assert (Hmax : (1 <= app_gui_view.MAXLEN)%nat) by (unfold app_gui_view.MAXLEN; lia).
  unfold app_gui_view._update_plot. cbv zeta. cbn [app_gui_view.xs app_gui_view.y1 app_gui_view.y2].
  unfold app_gui_view.thickness.
  set (x := match app_gui_view.t0 self with None => 0%Q | Some t => (ts - t)%Q end).
  set (t1 := match number_of (dict_get "CH1_Thickness_A" v) with
             | Some t1 => t1 | None => 0%Q end).
  set (t2 := match number_of (dict_get "CH2_Thickness_A" v) with
             | Some t2 => t2 | None => 0%Q end).
  set (bx := deque_append app_gui_view.MAXLEN (app_gui_view.xs self) x).
  set (b1 := deque_append app_gui_view.MAXLEN (app_gui_view.y1 self) t1).
  set (b2 := deque_append app_gui_view.MAXLEN (app_gui_view.y2 self) t2).
  assert (Hlast : seq_last bx = Ok x) by (apply deque_append_last; exact Hmax).
  rewrite Hlast.
  assert (Hn1 : b1 <> []) by (apply deque_append_nonempty; exact Hmax).
  assert (Hn2 : b2 <> []) by (apply deque_append_nonempty; exact Hmax).
  destruct (seq_min_spec Hn1) as (m1 & Hm1 & _).
  destruct (seq_min_spec Hn2) as (m2 & Hm2 & _).
  destruct (seq_max_spec Hn1) as (M1 & HM1 & _).
  destruct (seq_max_spec Hn2) as (M2 & HM2 & _).
  rewrite Hm1, Hm2, HM1, HM2.
  eexists. eexists. split; [reflexivity|].
  cbn [app_gui_view.xs app_gui_view.y1 app_gui_view.y2 app_gui_view.t0].
  split; [exact (deque_append_takes _ _ _)|].
  split; [exact (deque_append_takes _ _ _)|].
  split; [exact (deque_append_takes _ _ _)|].
  split; [exact Hlast|].
  split; [apply deque_append_last; exact Hmax|].
  split; [apply deque_append_last; exact Hmax|].
  split; [apply deque_append_length|].
  split; [apply deque_append_length|].
  split; [apply deque_append_length|].
  destruct (app_gui_view.t0 self); reflexivity.
Qed.

(** X20. The limits [_update_plot] sets on the axes are well formed: the
    time axis ends at the newest sample but not before 10 s, starts at 0 or
    120 s before its end, and is never wider than 120 s; the value axis has
    its bottom strictly below its top and leaves no buffered sample of either
    channel outside. *)
Theorem update_plot_limits :
  forall self ts v self' lim,
    app_gui_view._update_plot self ts v = Ok (self', lim) ->
    (10 <= app_gui_view.right lim)%Q /\
    (forall x, seq_last (app_gui_view.xs self') = Ok x ->
               (x <= app_gui_view.right lim)%Q) /\
    (0 <= app_gui_view.left lim < app_gui_view.right lim)%Q /\
    (app_gui_view.right lim - app_gui_view.left lim <= 120)%Q /\
    (app_gui_view.bottom lim < app_gui_view.top lim)%Q /\
    Forall (fun y => (app_gui_view.bottom lim <= y <= app_gui_view.top lim)%Q)
           (app_gui_view.y1 self' ++ app_gui_view.y2 self').
Proof.
  intros self ts v self' lim.
  assert (Hmax : (1 <= app_gui_view.MAXLEN)%nat) by (unfold app_gui_view.MAXLEN; lia).
  unfold app_gui_view._update_plot. cbv zeta.
  cbn [app_gui_view.xs app_gui_view.y1 app_gui_view.y2].
  set (bx := deque_append app_gui_view.MAXLEN (app_gui_view.xs self) _).
  set (b1 := deque_append app_gui_view.MAXLEN (app_gui_view.y1 self) _).
  set (b2 := deque_append app_gui_view.MAXLEN (app_gui_view.y2 self) _).
  destruct (seq_last bx) as [x_last|e] eqn:Hlast; [|discriminate].
  assert (Hn1 : b1 <> []) by (apply deque_append_nonempty; exact Hmax).
  assert (Hn2 : b2 <> []) by (apply deque_append_nonempty; exact Hmax).
  destruct (seq_min_spec Hn1) as (m1 & Hm1 & Hin1 & Hlo1).
  destruct (seq_min_spec Hn2) as (m2 & Hm2 & Hin2 & Hlo2).
  destruct (seq_max_spec Hn1) as (M1 & HM1 & _ & Hhi1).
  destruct (seq_max_spec Hn2) as (M2 & HM2 & _ & Hhi2).
  rewrite Hm1, Hm2, HM1, HM2.
  intros [= <- <-].
  cbn [app_gui_view.left app_gui_view.right app_gui_view.bottom app_gui_view.top
       app_gui_view.xs app_gui_view.y1 app_gui_view.y2].
  fold bx. rewrite Hlast.
  assert (Hr : (10 <= max2 10 x_last /\ x_last <= max2 10 x_last)%Q).
  { unfold max2. destruct (Qlt_le_dec 10 x_last); lra. }
  set (right := max2 10 x_last) in *.
  assert (Hm1M1 : (m1 <= M1)%Q).
  { rewrite Forall_forall in Hhi1. now apply Hhi1. }
  set (ymin := min2 m1 m2).
  set (ymax := max2 M1 M2).
  assert (Hymin : (ymin <= m1 /\ ymin <= m2)%Q).
  { unfold ymin, min2. destruct (Qlt_le_dec m2 m1); lra. }
  assert (Hymax : (M1 <= ymax /\ M2 <= ymax)%Q).
  { unfold ymax, max2. destruct (Qlt_le_dec M1 M2); lra. }
  set (ymax' := if Qeq_bool ymin ymax then (ymin + 1)%Q else ymax).
  assert (Hgap : (ymin < ymax' /\ ymax <= ymax')%Q).
  { unfold ymax'. destruct (Qeq_bool ymin ymax) eqn:E.
    - apply Qeq_bool_iff in E. lra.
    - apply Qeq_bool_neq in E. split; [|lra].
      destruct (Qlt_le_dec ymin ymax) as [H|H]; [exact H|].
      exfalso. apply E. lra. }
  split; [lra|]. split; [intros x [= <-]; lra|].
  unfold app_gui_view.WINDOW_SEC.
  split; [|split; [|split]].
  - destruct (Qle_bool right 120) eqn:E; [lra|].
    assert (~ (right <= 120)%Q) by (intros H; apply Qle_bool_iff in H; congruence).
    lra.
  - destruct (Qle_bool right 120) eqn:E; [apply Qle_bool_iff in E|]; lra.
  - lra.
  - apply Forall_app. rewrite Forall_forall in Hlo1, Hlo2, Hhi1, Hhi2.
    split; apply Forall_forall; intros y Hy.
    + specialize (Hlo1 y Hy). specialize (Hhi1 y Hy). lra.
    + specialize (Hlo2 y Hy). specialize (Hhi2 y Hy). lra.
Qed.

Lemma update_plot_limits_witness :
  exists self' lim,
    app_gui_view._update_plot
      (app_gui_view.mkPlot (Some 100%Q) [0%Q] [3%Q] [0%Q]) 300
      [("CH1_Thickness_A", VFloat 3); ("CH2_Thickness_A", VStr "ERR:IOError")]
    = Ok (self', lim) /\
    (app_gui_view.right lim - app_gui_view.left lim <= 120)%Q /\
    (app_gui_view.bottom lim < app_gui_view.top lim)%Q.
Proof.
  eexists. eexists. split; [reflexivity|].
  destruct (@update_plot_limits
              (app_gui_view.mkPlot (Some 100%Q) [0%Q] [3%Q] [0%Q]) 300
              [("CH1_Thickness_A", VFloat 3); ("CH2_Thickness_A", VStr "ERR:IOError")]
              _ _ eq_refl) as (_ & _ & _ & Hwidth & Hgap & _).
  split; [exact Hwidth | exact Hgap].
Defined.

(** ** Committing a settings field *)

(** X21. [_commit] never raises.  While the panel is being built, while the
    application is not connected, or when the register has no field, it does
    nothing: no dialog and the host untouched.  Otherwise it hands the
    stripped text of the field to the write path, channel 1 for column 1 and
    channel 2 for any other column, and a failure of the write becomes an
    error dialog for that register. *)
Theorem commit_guards_the_write :
  forall Dev (host : Host Dev) building self vars reg_name col d,
    (exists shown d',
        app_gui_view._commit building self vars reg_name col d = (Ok shown, d')) /\
    (building = true \/ app_gui.connected self = false \/ app_gui.cli self = None \/
     dict_get reg_name vars = None ->
     app_gui_view._commit building self vars reg_name col d = (Ok None, d)) /\
    (forall content,
        building = false -> app_gui_view._is_connected self = true ->
        dict_get reg_name vars = Some content ->
        let write :=
          app_gui._on_write (app_gui.regs self) (app_gui.cli self) reg_name
            (if Z.eqb col 1 then 1 else 2) (strip_text content) d in
        (forall e d', write = (Raise e, d') ->
           app_gui_view._commit building self vars reg_name col d
           = (Ok (Some (reg_name, e)), d')) /\
        (forall d', write = (Ok tt, d') ->
           app_gui_view._commit building self vars reg_name col d = (Ok None, d'))).
Proof.
  intros Dev host building self vars reg_name col d.
  unfold app_gui_view._commit, app_gui_view._is_connected.
  split; [|split].
  - destruct (orb building _); [now exists None, d|].
    destruct (dict_get reg_name vars) as [content|]; [|now exists None, d].
    unfold try_except, bind, ret.
    destruct (app_gui._on_write _ _ _ _ _ d) as [[[]|e] d1]; eexists; eexists; reflexivity.
  - intros [-> | [Hc | [Hc | Hv]]].
    + reflexivity.
    + rewrite Hc. cbn. now rewrite orb_true_r.
    + rewrite Hc. cbn. rewrite andb_false_r. cbn. now rewrite orb_true_r.
    + destruct (orb building _); [reflexivity|]. now rewrite Hv.
  - intros content -> Hconn Hv. cbv zeta. rewrite Hconn, Hv. cbn [negb orb].
    unfold try_except, bind, ret. split.
    + intros e d' Hw. now rewrite Hw.
    + intros d' Hw. now rewrite Hw.
Qed.

Lemma commit_guards_the_write_witness :
  app_gui_view._commit false
    (app_gui.mkApp [bench.numeric "w" "uint16" 7 1] "big" 1 (Some bench.com1) true [])
    [("w", " abc ")] "w" 1 (bench.device [] [])
  = (Ok (Some ("w", "ValueError")), bench.device [] []).
Proof.
  apply (proj1 (proj2 (proj2
           (@commit_guards_the_write bench.Bench bench.bench_host false
              (app_gui.mkApp [bench.numeric "w" "uint16" 7 1] "big" 1
                 (Some bench.com1) true [])
              [("w", " abc ")] "w" 1 (bench.device [] [])))
           " abc " eq_refl eq_refl eq_refl)).
  reflexivity.
Defined.

(** ** Waiting for the device *)

Section Waiting.
Context {Dev : Type} {host : Host Dev}.

Import modbus_client app_main.





End Waiting.





(** ** Sampling the rate *)

Section Sampling.
Context {Dev : Type} {host : Host Dev}.

Lemma app_read_all_loop_total cli endianness regs out d :
  Forall named regs ->
  exists out' d', app.read_all_loop cli regs endianness out d = (Ok out', d').
Proof.
  intros H. revert out d. induction H as [|r regs [n Hn] _ IH]; intros out d; simpl.
  - now exists out, d.
  - unfold bind, app.read_all_step, try_except, bind, lift, ret, getitem.
    rewrite Hn. destruct (app.reg_value cli r endianness d) as [[v|x] d1]; apply IH.
Qed.
End Sampling.

(** X24. [value_fn] returns a sample whenever every descriptor has a name.
    Its time is read after the pass; the mapping is printed, and the time of
    the last print moved, exactly when more than one second has gone by.  The
    rate is the entry 'CH1_Rate_A_per_s' when that is a non-zero number and 0
    when it is a non-empty string such as an error marker; only when that
    entry is missing or zero is 'Rate_A_per_s' consulted. *)
Theorem value_fn_rate :
  forall Dev (host : Host Dev) cli regs endianness last_print d,
    Forall named regs ->
    exists data d1 s,
      app.read_all cli regs endianness d = (Ok data, d1) /\
      app_main.value_fn cli regs endianness last_print d = (Ok s, d1) /\
      app_main.ts s = time_time d1 /\
      ((1 < app_main.ts s - last_print)%Q ->
       app_main.printed s = Some data /\ app_main.last_print s = app_main.ts s) /\
      ((app_main.ts s - last_print <= 1)%Q ->
       app_main.printed s = None /\ app_main.last_print s = last_print) /\
      (forall text, dict_get "CH1_Rate_A_per_s" data = Some (VStr text) ->
                    text <> "" -> app_main.rate s = 0%Q) /\
      (forall x, dict_get "CH1_Rate_A_per_s" data = Some (VFloat x) ->
                 (~ x == 0)%Q -> app_main.rate s = x) /\
      (truthy (dict_get "CH1_Rate_A_per_s" data) = false ->
       (forall y, dict_get "Rate_A_per_s" data = Some (VFloat y) ->
                  (~ y == 0)%Q -> app_main.rate s = y) /\
       (truthy (dict_get "Rate_A_per_s" data) = false -> app_main.rate s = 0%Q)).
Proof.
  intros Dev host cli regs endianness last_print d Hn.
  destruct (app_read_all_loop_total cli endianness [] d Hn) as (data & d1 & Hrun).
  exists data, d1. eexists. split; [exact Hrun|].
  unfold app_main.value_fn, bind, now, ret. unfold app.read_all in *. rewrite Hrun.
  split; [reflexivity|].
  cbn [app_main.ts app_main.rate app_main.last_print app_main.printed].
  split; [reflexivity|].
  assert (Hnz : forall x, (~ x == 0)%Q -> Qeq_bool x 0 = false).
  { intros x Hx. destruct (Qeq_bool x 0) eqn:E; auto.
    apply Qeq_bool_iff in E. contradiction. }
  split; [|split; [|split; [|split]]].
  - intros Hlt. destruct (Qlt_le_dec 1 (time_time d1 - last_print)); [auto | lra].
  - intros Hle. destruct (Qlt_le_dec 1 (time_time d1 - last_print)); [lra | auto].
  - intros text Hg Ht. rewrite Hg.
    assert (Ht' : String.eqb text "" = false).
    { destruct (String.eqb_spec text ""); [contradiction | reflexivity]. }
    unfold py_or. cbn [truthy]. rewrite Ht'. cbn [negb truthy]. rewrite Ht'.
    reflexivity.
  - intros x Hg Hx. rewrite Hg. unfold py_or. cbn [truthy].
    rewrite (Hnz x Hx). cbn [negb truthy]. rewrite (Hnz x Hx). reflexivity.
  - intros Hf. split.
    + intros y Hg Hy. unfold py_or. rewrite Hf, Hg. cbn [truthy].
      rewrite (Hnz y Hy). reflexivity.
    + intros Hf2. unfold py_or. rewrite Hf, Hf2. reflexivity.
Qed.

Lemma value_fn_rate_witness :
  exists s d1,
    app_main.value_fn (Some bench.com1)
      [bench.numeric "CH1_Rate_A_per_s" "uint16" 10 (1 # 10);
       bench.numeric "Rate_A_per_s" "uint16" 11 1] "big" 0
      (bench.device [(10, 42); (11, 7)] [10]) = (Ok s, d1) /\
    app_main.rate s = 0%Q.
Proof.
  destruct (@value_fn_rate bench.Bench bench.bench_host (Some bench.com1)
              [bench.numeric "CH1_Rate_A_per_s" "uint16" 10 (1 # 10);
               bench.numeric "Rate_A_per_s" "uint16" 11 1] "big" 0%Q
              (bench.device [(10, 42); (11, 7)] [10]))
    as (data & d1 & s & Hrun & Hval & _ & _ & _ & Hmarker & _).
  - repeat constructor; eexists; reflexivity.
  - exists s, d1. split; [exact Hval|].
    vm_compute in Hrun. injection Hrun as <- _.
    apply (Hmarker "ERR:SlaveReportedException"); [reflexivity | discriminate].
Defined.

(** ** plotter.py *)

(** X25. Over any number of turns of [_loop] that [value_fn] survives, the
    two buffers of the live plot stay of equal length, and that length is
    min(1200, n + turns) when they held n <= 1200 samples. *)
Theorem live_plot_buffers :
  forall Dev (host : Host Dev) turns value_fn t0 self d self' d',
    plotter.loop_turns turns value_fn t0 self d = (Ok self', d') ->
    List.length (plotter.x self) = List.length (plotter.y self) ->
    (List.length (plotter.x self) <= 1200)%nat ->
    List.length (plotter.x self') = Nat.min 1200 (List.length (plotter.x self) + turns) /\
    List.length (plotter.y self') = List.length (plotter.x self').
Proof.
  intros Dev host turns value_fn t0. induction turns as [|n IH];
    intros self d self' d' Hrun Heq Hle.
  - cbn in Hrun. injection Hrun as <- _. split; [lia | now symmetry].
  - cbn [plotter.loop_turns] in Hrun. unfold bind at 1 in Hrun.
    unfold plotter.loop_turn, bind, sleep, ret in Hrun.
    destruct (value_fn d) as [[s|e] d1]; [|discriminate].
    apply IH in Hrun; cbn [plotter.x plotter.y] in *.
    + rewrite !deque_append_length in Hrun. unfold plotter.MAXLEN in Hrun.
      destruct Hrun as [Hx Hy]. split; [|exact Hy]. rewrite Hx. lia.
    + rewrite !deque_append_length. now rewrite Heq.
    + rewrite deque_append_length. unfold plotter.MAXLEN. lia.
Qed.

Lemma live_plot_buffers_witness :
  exists self' d',
    plotter.loop_turns (host := bench.bench_host) 3
      (fun d => (Ok (bench.clock d, 5%Q), d)) 0 (plotter.mkLivePlot [] [])
      (bench.device [] []) = (Ok self', d') /\
    List.length (plotter.x self') = 3%nat /\
    List.length (plotter.y self') = 3%nat.
Proof.
  eexists. eexists. split; [vm_compute; reflexivity|].
  destruct (@live_plot_buffers bench.Bench bench.bench_host 3
              (fun d => (Ok (bench.clock d, 5%Q), d)) 0%Q (plotter.mkLivePlot [] [])
              (bench.device [] []) _ _ eq_refl eq_refl) as [Hx Hy].
  - simpl. lia.
  - split; [exact Hx | exact (eq_trans Hy Hx)].
Defined.

(** X26. [update] never raises.  With no sample it sets no limit; otherwise
    the time axis starts at 0 or later and ends at 10 s or later, and the
    value axis has its bottom strictly below its top with every buffered
    value in between. *)
Theorem live_plot_limits :
  forall self,
    exists lims,
      plotter.update self = Ok lims /\
      (plotter.x self = [] -> lims = None) /\
      (plotter.x self <> [] ->
       exists l r b t,
         lims = Some ((l, r), (b, t)) /\
         (0 <= l)%Q /\ (10 <= r)%Q /\ (b < t)%Q /\
         Forall (fun v => (b <= v <= t)%Q) (plotter.y self)).
Proof.
  intros self. unfold plotter.update.
  destruct (plotter.x self) as [|x0 xs] eqn:Hx.
  - exists None. split; [reflexivity|]. split; [reflexivity | congruence].
  - assert (Hlast : exists x_last, seq_last (x0 :: xs) = Ok x_last).
    { unfold seq_last. destruct (rev (x0 :: xs)) as [|a t] eqn:E.
      - apply (f_equal (@List.length Q)) in E. rewrite length_rev in E. discriminate E.
      - now exists a. }
    destruct Hlast as (x_last & Hlast). rewrite Hlast.
    assert (Hl : (0 <= max2 0 x0)%Q).
    { unfold max2. destruct (Qlt_le_dec 0 x0); lra. }
    assert (Hr : (10 <= max2 10 x_last)%Q).
    { unfold max2. destruct (Qlt_le_dec 10 x_last); lra. }
    destruct (plotter.y self) as [|y0 ys] eqn:Hy.
    + eexists. split; [reflexivity|]. split; [discriminate|]. intros _.
      do 4 eexists. split; [reflexivity|].
      split; [exact Hl|]. split; [exact Hr|]. split; [lra | constructor].
    + assert (Hne : y0 :: ys <> []) by discriminate.
      destruct (seq_min_spec Hne) as (m & Hm & Hin & Hlo).
      destruct (seq_max_spec Hne) as (M & HM & _ & Hhi).
      rewrite Hm, HM.
      eexists. split; [reflexivity|]. split; [discriminate|]. intros _.
      do 4 eexists. split; [reflexivity|].
      split; [exact Hl|]. split; [exact Hr|].
      assert (HmM : (m <= M)%Q).
      { rewrite Forall_forall in Hhi. now apply Hhi. }
      split; [lra|].
      rewrite Forall_forall in Hlo, Hhi. apply Forall_forall. intros v Hv.
      specialize (Hlo v Hv). specialize (Hhi v Hv). lra.
Qed.

(** ** The two passes, where they agree *)

Lemma read_all_agree_witness :
  app.read_all (Some bench.com1)
    [bench.numeric "a" "int32" 30 1; bench.numeric "b" "ip32" 30 1;
     bench.numeric "c" "uint16" 31 (1 # 10); bench.numeric "d" "float32" 1 1]
    "big" (bench.device [(30, 0xFFFF); (31, 0xFFFE)] [31])
  = modbus_client.read_all (Some bench.com1)
      [bench.numeric "a" "int32" 30 1; bench.numeric "b" "ip32" 30 1;
       bench.numeric "c" "uint16" 31 (1 # 10); bench.numeric "d" "float32" 1 1]
      "big" (bench.device [(30, 0xFFFF); (31, 0xFFFE)] [31]).
Proof.
  apply read_all_agree.
  repeat (apply Forall_cons; [intros t E; injection E as <-; split; discriminate |]).
  apply Forall_nil.
Defined.
